(** * docker_ps.py: a shallow embedding and its verified properties

    The program lists the containers of the local Docker runtime as a
    table.  Its pure part is string processing: substring tests, three
    regular expressions, integer formatting and a sort.  Its effectful
    part runs two external commands and prints.

    Conventions of the embedding.
    - A Python [str] is a [string]; a character is a code point below
      256.  On that range [str.lower], [str.isspace], the regex classes
      [\d] and [\s] and the code point order are the ones written out in
      module [Py].
    - A Python [int] is a [Z].
    - External commands, the clock and [json.loads] are the variables of
      the section [Program]; printing is a log of output events. *)

From Stdlib Require Import String Ascii List ZArith Lia Bool.
From Stdlib Require Import Sorted Permutation DecimalString DecimalPos.
Import ListNotations.
Open Scope string_scope.

(** ** Python string primitives *)

Module Py.

(** [str.lower] on one character: the letters [A-Z] and the upper-case
    letters of the Latin-1 block move up by 32. *)
Definition lower_char (c : ascii) : ascii :=
  let n := nat_of_ascii c in
  if (((65 <=? n) && (n <=? 90)) || ((192 <=? n) && (n <=? 214))
      || ((216 <=? n) && (n <=? 222)))%nat
  then ascii_of_nat (n + 32) else c.

(** [s.lower()] *)
Fixpoint lower (s : string) : string :=
  match s with
  | EmptyString => EmptyString
  | String c s' => String (lower_char c) (lower s')
  end.

(** [sub in s] *)
Fixpoint contains (sub s : string) : bool :=
  prefix sub s ||
  match s with
  | EmptyString => false
  | String _ s' => contains sub s'
  end.

(** [s.startswith(p)] *)
Definition startswith (p s : string) : bool := prefix p s.

(** [c.isspace()], which is also the regex class [\s]. *)
Definition is_space (c : ascii) : bool :=
  let n := nat_of_ascii c in
  (((9 <=? n) && (n <=? 13)) || ((28 <=? n) && (n <=? 32))
   || (n =? 133) || (n =? 160))%nat.

(** The regex class [\d]. *)
Definition is_digit (c : ascii) : bool :=
  let n := nat_of_ascii c in ((48 <=? n) && (n <=? 57))%nat.

Fixpoint take_while (p : ascii -> bool) (s : string) : string :=
  match s with
  | EmptyString => EmptyString
  | String c s' => if p c then String c (take_while p s') else EmptyString
  end.

Fixpoint drop_while (p : ascii -> bool) (s : string) : string :=
  match s with
  | EmptyString => EmptyString
  | String c s' => if p c then drop_while p s' else s
  end.

(** [s.lstrip()] and [s.rstrip()]: the white space at either end goes. *)
Definition lstrip (s : string) : string := drop_while is_space s.

Fixpoint rstrip (s : string) : string :=
  match s with
  | EmptyString => EmptyString
  | String c s' =>
      match rstrip s' with
      | EmptyString => if is_space c then EmptyString else String c EmptyString
      | r => String c r
      end
  end.

(** [s.strip()] *)
Definition strip (s : string) : string := rstrip (lstrip s).

(** [s.split(sep)] for a one-character separator: never an empty list. *)
Fixpoint split (sep : ascii) (s : string) : list string :=
  match s with
  | EmptyString => [EmptyString]
  | String c s' =>
      if Ascii.eqb c sep then EmptyString :: split sep s'
      else match split sep s' with
           | [] => [String c EmptyString]
           | w :: ws => String c w :: ws
           end
  end.

(** [s.replace(c, by)] for a one-character pattern. *)
Fixpoint replace (c : ascii) (by_ : string) (s : string) : string :=
  match s with
  | EmptyString => EmptyString
  | String a s' =>
      if Ascii.eqb a c then by_ ++ replace c by_ s'
      else String a (replace c by_ s')
  end.

(** [sep.join(l)] *)
Definition join (sep : string) (l : list string) : string := String.concat sep l.

(** [s[:n]] *)
Definition slice_to (n : nat) (s : string) : string := substring 0 n s.

(** [str(n)] for an [int]. *)
Definition str_of_int (n : Z) : string := NilZero.string_of_int (Z.to_int n).

(** [s.rjust(w)]: spaces on the left up to width [w]. *)
Fixpoint spaces (n : nat) : string :=
  match n with
  | O => EmptyString
  | S n' => String " "%char (spaces n')
  end.

Definition rjust (w : nat) (s : string) : string :=
  spaces (w - String.length s) ++ s.

(** The format specification [{n:2d}]. *)
Definition format_2d (n : Z) : string := rjust 2 (str_of_int n).

(** [int(s)] for a non-empty run of the digits [0-9]. *)
Definition digit_value (c : ascii) : Z := Z.of_nat (nat_of_ascii c - 48).

Fixpoint int_of_digits_from (acc : Z) (s : string) : Z :=
  match s with
  | EmptyString => acc
  | String c s' => int_of_digits_from (10 * acc + digit_value c) s'
  end.

Definition int_of_digits (s : string) : Z := int_of_digits_from 0 s.

(** [(a, b) < (c, d)] on pairs of strings: the first components decide
    unless they are equal. *)
Definition pair_ltb (x y : string * string) : bool :=
  if String.eqb (fst x) (fst y) then String.ltb (snd x) (snd y)
  else String.ltb (fst x) (fst y).

End Py.

(** ** The three regular expressions of the program

    Each pattern is a literal and one or two greedy character runs, so a
    match at a position is decided without backtracking: a run that gave
    a character back would leave a character of its own class in front
    of a sub-pattern that cannot start with it. *)

Module Re.

(** The rest of [s] after the literal [lit], when [s] starts with it. *)
Fixpoint strip_prefix (lit s : string) : option string :=
  match lit with
  | EmptyString => Some s
  | String a lit' =>
      match s with
      | EmptyString => None
      | String b s' => if Ascii.eqb a b then strip_prefix lit' s' else None
      end
  end.

(** [re.search]: the match at the leftmost position that has one.  The
    position at the end of the string is tried too. *)
Fixpoint search {A : Type} (match_at : string -> option A) (s : string)
  : option A :=
  match match_at s with
  | Some r => Some r
  | None =>
      match s with
      | EmptyString => None
      | String _ s' => search match_at s'
      end
  end.

(** [re.findall] for a pattern with one group whose matches are never
    empty: the groups of the successive leftmost matches, each search
    resuming where the previous match ended.  [match_at] returns the
    group and the text after the match. *)
Fixpoint findall_fuel (match_at : string -> option (string * string))
  (fuel : nat) (s : string) : list string :=
  match fuel with
  | O => []
  | S fuel' =>
      match match_at s with
      | Some (g, rest) => g :: findall_fuel match_at fuel' rest
      | None =>
          match s with
          | EmptyString => []
          | String _ s' => findall_fuel match_at fuel' s'
          end
      end
  end.

Definition findall (match_at : string -> option (string * string))
  (s : string) : list string :=
  findall_fuel match_at (String.length s) s.

(** A non-empty maximal run of the class [cls] at the head of [s], with
    the text after it. *)
Definition run_plus (cls : ascii -> bool) (s : string)
  : option (string * string) :=
  match Py.take_while cls s with
  | EmptyString => None
  | r => Some (r, Py.drop_while cls s)
  end.

(** [lit(cls+)] at the head of [s]: the group and the text after it. *)
Definition lit_then_run (lit : string) (cls : ascii -> bool) (s : string)
  : option (string * string) :=
  match strip_prefix lit s with
  | Some t => run_plus cls t
  | None => None
  end.

(** [0\.0\.0\.0:(\d+)] *)
Definition port_literal : string := "0.0.0.0:".

Definition external_port_at : string -> option (string * string) :=
  lit_then_run port_literal Py.is_digit.

(** [com\.docker\.compose\.project\.working_dir=([^,]+)] *)
Definition working_dir_key : string :=
  "com.docker.compose.project.working_dir=".

Definition not_comma (c : ascii) : bool := negb (Ascii.eqb c ","%char).

Definition working_dir_at (s : string) : option string :=
  option_map fst (lit_then_run working_dir_key not_comma s).

(** [(\d+)\s+unit] at the head of [s]: the group. *)
Definition count_unit_at (unit : string) (s : string) : option string :=
  match run_plus Py.is_digit s with
  | Some (ds, t) =>
      match run_plus Py.is_space t with
      | Some (_, u) =>
          match strip_prefix unit u with
          | Some _ => Some ds
          | None => None
          end
      | None => None
      end
  | None => None
  end.

End Re.

(** ** The field extractors *)

(** [extract_external_ports] *)
Definition extract_external_ports (ports_str : string) : string :=
  if String.eqb ports_str "" then ""
  else
    match Re.findall Re.external_port_at ports_str with
    | [] => ""
    | matches => Py.join "," matches
    end.

(** [get_working_dir] *)
Definition get_working_dir (labels : string) : string :=
  if String.eqb labels "" then ""
  else
    match Re.search Re.working_dir_at labels with
    | Some g => g
    | None => ""
    end.

(** The body of the [try] block of [get_container_uptime] once
    [uptime_seconds] is known. *)
Definition format_uptime (uptime_seconds : Z) : string :=
  if (uptime_seconds <? 60)%Z then
    Py.format_2d uptime_seconds ++ " s"
  else if (uptime_seconds <? 3600)%Z then
    let minutes := (uptime_seconds / 60)%Z in
    Py.format_2d minutes ++ " m"
  else if (uptime_seconds <? 86400)%Z then
    let hours := (uptime_seconds / 3600)%Z in
    Py.format_2d hours ++ " h"
  else if (uptime_seconds <? 2592000)%Z then
    let days := (uptime_seconds / 86400)%Z in
    Py.format_2d days ++ " d"
  else if (uptime_seconds <? 31536000)%Z then
    let months := (uptime_seconds / 2592000)%Z in
    Py.format_2d months ++ " mo"
  else
    let years := (uptime_seconds / 31536000)%Z in
    Py.format_2d years ++ " y".

(** [parse_status_for_time]: the first unit word that occurs selects the
    one pattern that is tried. *)
Definition parse_status_for_time (status : string) : string :=
  if Py.contains "second" status then
    match Re.search (Re.count_unit_at "second") status with
    | Some g => Py.format_2d (Py.int_of_digits g) ++ " s"
    | None => "   ?"
    end
  else if Py.contains "minute" status then
    match Re.search (Re.count_unit_at "minute") status with
    | Some g => Py.format_2d (Py.int_of_digits g) ++ " m"
    | None => "   ?"
    end
  else if Py.contains "hour" status then
    match Re.search (Re.count_unit_at "hour") status with
    | Some g => Py.format_2d (Py.int_of_digits g) ++ " h"
    | None => "   ?"
    end
  else if Py.contains "day" status then
    match Re.search (Re.count_unit_at "day") status with
    | Some g => Py.format_2d (Py.int_of_digits g) ++ " d"
    | None => "   ?"
    end
  else "   ?".

(** [get_status_style] *)
Definition get_status_style (status : string) : string :=
  if String.eqb status "healthy" then "bright_green"
  else if String.eqb status "unhealthy" then "bright_red"
  else if String.eqb status "running" then "bright_cyan"
  else if String.eqb status "stopped" || String.eqb status "error"
  then "bright_red"
  else if String.eqb status "starting" || String.eqb status "restarting"
  then "bright_yellow"
  else "white".

(** [rich.text.Text(plain, style=style)] *)
Record Text : Type := mkText { plain : string; style : string }.

(** [style_container_name] *)
Definition style_container_name (name status : string) : Text :=
  let style := get_status_style status in
  mkText name style.

(** [style_status_text] *)
Definition style_status_text (status : string) : Text :=
  let style := get_status_style status in
  mkText status style.

(** [get_simple_status] *)
Definition get_simple_status (status : string) : string :=
  let status_lower := Py.lower status in
  if Py.contains "healthy" status_lower then "healthy"
  else if Py.contains "unhealthy" status_lower then "unhealthy"
  else if Py.contains "starting" status_lower then "starting"
  else if Py.contains "up" status_lower then "running"
  else if Py.contains "exited (0)" status_lower then "stopped"
  else if Py.contains "exited" status_lower then "error"
  else if Py.contains "dead" status_lower then "dead"
  else if Py.contains "paused" status_lower then "paused"
  else if Py.contains "restarting" status_lower then "restarting"
  else "unknown".

(** [extract_group_from_path] *)
Definition extract_group_from_path (path : string) : string :=
  if String.eqb path "" then "zzz_other"
  else if Py.contains "/actions-runner/" path then "a_github"
  else if Py.startswith "/opt/" path then "b_opt"
  else if Py.startswith "/var/" path then "c_var"
  else "d_other".

(** ** The runtime, the records and the output *)

(** One decoded line of [docker ps --format json].  The program indexes
    ["ID"], ["Names"] and ["Status"] and reads ["Ports"] and ["Labels"]
    with [dict.get], so only these two may be missing. *)
Record container : Type := mkContainer {
  ID : string;
  Names : string;
  Status : string;
  Ports : option string;
  Labels : option string
}.

(** [d.get(key, default)] on an optional field. *)
Definition get_default (field : option string) (default : string) : string :=
  match field with
  | Some v => v
  | None => default
  end.

(** [subprocess.run(cmd, capture_output=True, text=True, check=True)]:
    the captured standard output, [CalledProcessError] on a non-zero exit
    status, or [OSError] when the command cannot be started. *)
Inductive run_result : Type :=
| Completed (stdout : string)
| CalledProcessError (e : string)
| OSError (e : string).

(** The exceptions that leave a function of the program. *)
Inductive exn : Type :=
| RaisedOSError (e : string)
| JSONDecodeError (line : string).

Inductive result (A : Type) : Type :=
| Ok (a : A)
| Raise (e : exn).
Arguments Ok {A} a.
Arguments Raise {A} e.

(** The dictionaries appended to [container_data]. *)
Record row_data : Type := mkRowData {
  row_group : string;
  row_id : string;
  row_name : string;
  row_workdir : string;
  row_ports : string;
  row_uptime : string;
  row_status : string
}.

(** [Table.add_column] *)
Record column : Type := mkColumn {
  header : string;
  width : option nat;
  min_width : option nat;
  max_width : option nat;
  column_style : option string
}.

(** The six renderables of one [Table.add_row]. *)
Record table_row : Type := mkTableRow {
  cell_id : string;
  cell_name : Text;
  cell_workdir : string;
  cell_ports : string;
  cell_uptime : string;
  cell_status : Text
}.

Record Table : Type := mkTable {
  columns : list column;
  rows : list table_row
}.

(** What the program writes: [print(line)] and [console.print(table)]. *)
Inductive output : Type :=
| Print (line : string)
| ConsolePrint (table : Table).

(** [x or "-"] *)
Definition or_dash (x : string) : string :=
  if String.eqb x "" then "-" else x.

(** The sort key [lambda x: (x["workdir"], x["name"])]. *)
Definition sort_key (x : row_data) : string * string :=
  (row_workdir x, row_name x).

(** [list.sort(key=...)] is a stable sort that compares keys with [<];
    the stable insertion sort returns the same list. *)
Fixpoint insert_by_key (x : row_data) (l : list row_data) : list row_data :=
  match l with
  | [] => [x]
  | y :: l' =>
      if Py.pair_ltb (sort_key y) (sort_key x) then y :: insert_by_key x l'
      else x :: l
  end.

Fixpoint sort_by_key (l : list row_data) : list row_data :=
  match l with
  | [] => []
  | x :: l' => insert_by_key x (sort_by_key l')
  end.

(** [cmd.insert(i, x)] *)
Definition list_insert {A : Type} (i : nat) (x : A) (l : list A) : list A :=
  (firstn i l ++ x :: skipn i l)%list.

Definition table_columns : list column :=
  [ mkColumn "ID" (Some 8) None None (Some "bright_black");
    mkColumn "NAME" None (Some 25) (Some 30) None;
    mkColumn "WORKDIR" None (Some 30) (Some 50) (Some "white");
    mkColumn "PORTS" (Some 10) None None (Some "cyan");
    mkColumn "UPTIME" (Some 8) None None (Some "white");
    mkColumn "STATUS" (Some 10) None None None ].

(** The body of the rendering loop of [main]. *)
Definition add_row (c : row_data) : table_row :=
  mkTableRow
    (row_id c)
    (style_container_name (row_name c) (row_status c))
    (row_workdir c)
    (or_dash (row_ports c))
    (row_uptime c)
    (style_status_text (row_status c)).

Section Program.

(** [json.loads] on one line; [None] stands for [JSONDecodeError]. *)
Variable json_loads : string -> option container.

(** The container runtime behind [subprocess.run]. *)
Variable subprocess_run : list string -> run_result.

(** [int((datetime.now(timezone.utc) - datetime.fromisoformat(s))
    .total_seconds())]; [None] when any step raises. *)
Variable seconds_since : string -> option Z.

(** The loop of [get_docker_containers] over the output lines. *)
Fixpoint loads_lines (lines : list string) : result (list container) :=
  match lines with
  | [] => Ok []
  | line :: lines' =>
      if String.eqb line "" then loads_lines lines'
      else
        match json_loads line with
        | None => Raise (JSONDecodeError line)
        | Some c =>
            match loads_lines lines' with
            | Ok containers => Ok (c :: containers)
            | Raise e => Raise e
            end
        end
  end.

(** [get_docker_containers] *)
Definition get_docker_containers (show_all : bool)
  : list output * result (list container) :=
  let cmd := ["docker"; "ps"; "--format"; "json"] in
  let cmd := if show_all then list_insert 2 "-a" cmd else cmd in
  match subprocess_run cmd with
  | Completed stdout =>
      ([], loads_lines (Py.split "010"%char (Py.strip stdout)))
  | CalledProcessError e =>
      ([Print ("Error running docker command: " ++ e)], Ok [])
  | OSError e => ([], Raise (RaisedOSError e))
  end.

(** [get_container_uptime]: every exception ends in the placeholder. *)
Definition get_container_uptime (container_id : string) : string :=
  let cmd :=
    ["docker"; "inspect"; container_id; "--format"; "{{.State.StartedAt}}"] in
  match subprocess_run cmd with
  | Completed stdout =>
      let started_at_str := Py.strip stdout in
      match seconds_since (Py.replace "Z"%char "+00:00" started_at_str) with
      | Some uptime_seconds => format_uptime uptime_seconds
      | None => "   ?"
      end
  | CalledProcessError _ | OSError _ => "   ?"
  end.

(** The body of the first loop of [main]. *)
Definition container_row (c : container) : row_data :=
  let workdir := get_working_dir (get_default (Labels c) "") in
  let group := extract_group_from_path workdir in
  let uptime := get_container_uptime (ID c) in
  let simple_status := get_simple_status (Status c) in
  mkRowData
    group
    (Py.slice_to 8 (ID c))
    (Names c)
    (or_dash workdir)
    (extract_external_ports (get_default (Ports c) ""))
    uptime
    simple_status.

(** The table [main] prints for a non-empty list of containers. *)
Definition render (containers : list container) : Table :=
  let container_data := map container_row containers in
  let container_data := sort_by_key container_data in
  mkTable table_columns (map add_row container_data).

(** [main]: the output and how the run ends. *)
Definition main : list output * result unit :=
  match get_docker_containers true with
  | (out, Raise e) => (out, Raise e)
  | (out, Ok []) => ((out ++ [Print "No containers found"])%list, Ok tt)
  | (out, Ok containers) =>
      ((out ++ [ConsolePrint (render containers)])%list, Ok tt)
  end.

End Program.

(** ** Definitions the statements use *)

(** The keywords of a normalized status. *)
Definition status_keywords : list string :=
  ["healthy"; "unhealthy"; "starting"; "running"; "stopped"; "error";
   "dead"; "paused"; "restarting"; "unknown"].

(** The priority table of the specification: pattern and keyword, in the
    order in which the patterns are tested. *)
Definition status_priority : list (string * string) :=
  [("healthy", "healthy"); ("unhealthy", "unhealthy");
   ("starting", "starting"); ("up", "running"); ("exited (0)", "stopped");
   ("exited", "error"); ("dead", "dead"); ("paused", "paused");
   ("restarting", "restarting")].

(** The keyword of the first pattern of [table] that occurs in [s]. *)
Fixpoint first_match (table : list (string * string)) (s : string) : string :=
  match table with
  | [] => "unknown"
  | (pattern, keyword) :: table' =>
      if Py.contains pattern s then keyword else first_match table' s
  end.

(** The threshold table of the specification: exclusive upper bound,
    seconds per unit, unit suffix.  Durations beyond the last bound are
    counted in years of 365 days. *)
Definition uptime_units : list (Z * Z * string) :=
  [(60, 1, "s"); (3600, 60, "m"); (86400, 3600, "h");
   (2592000, 86400, "d"); (31536000, 2592000, "mo")]%Z.

(** The first unit of [units] whose bound exceeds [n] formats it. *)
Fixpoint format_by_units (units : list (Z * Z * string)) (n : Z) : string :=
  match units with
  | [] => Py.format_2d (n / 31536000) ++ " y"
  | (bound, seconds, suffix) :: units' =>
      if (n <? bound)%Z then Py.format_2d (n / seconds) ++ " " ++ suffix
      else format_by_units units' n
  end.

(** Every character of [s] is in the class [cls]. *)
Fixpoint all_chars (cls : ascii -> bool) (s : string) : bool :=
  match s with
  | EmptyString => true
  | String c s' => cls c && all_chars cls s'
  end.

(** [s] starts with a character of the class [cls]. *)
Definition head_is (cls : ascii -> bool) (s : string) : bool :=
  match s with
  | EmptyString => false
  | String c _ => cls c
  end.

(** [sub] occurs in [s] at offset [i], followed by [after]. *)
Definition occurs_at (sub s : string) (i : nat) (after : string) : Prop :=
  exists p, s = p ++ sub ++ after /\ String.length p = i.

(** A match consumes at least one character. *)
Definition shrinks (match_at : string -> option (string * string)) : Prop :=
  forall s g rest,
    match_at s = Some (g, rest) -> String.length rest < String.length s.

(** [s] without its first [i] characters. *)
Fixpoint skip (i : nat) (s : string) : string :=
  match i, s with
  | S i', String _ s' => skip i' s'
  | _, _ => s
  end.

(** [x <= y] on sort keys: lexicographic on the pair, each component
    compared as a string, character by character. *)
Definition pair_le (x y : string * string) : Prop :=
  String.ltb (fst x) (fst y) = true \/
  (fst x = fst y /\ String.leb (snd x) (snd y) = true).

(** The same order on the rows of [container_data]. *)
Definition data_le (a b : row_data) : Prop :=
  pair_le (sort_key a) (sort_key b).

(** The order of the rendered rows: the sort key read off the cells. *)
Definition row_key (r : table_row) : string * string :=
  (cell_workdir r, plain (cell_name r)).

(** A row stands before another one in ascending order. *)
Definition row_le (r1 r2 : table_row) : Prop :=
  pair_le (row_key r1) (row_key r2).

(** The styles [get_status_style] can return. *)
Definition status_styles : list string :=
  ["bright_green"; "bright_red"; "bright_cyan"; "bright_yellow"; "white"].

(** The command lines of the two queries. *)
Definition list_command : list string :=
  ["docker"; "ps"; "-a"; "--format"; "json"].

Definition inspect_command (container_id : string) : list string :=
  ["docker"; "inspect"; container_id; "--format"; "{{.State.StartedAt}}"].

(** ** A sample runtime

    Three containers, the lines [docker ps] prints for them and a decoder
    that knows exactly these lines.  Only the second container can be
    inspected. *)

(** The characters [U+0022] and [U+000A]. *)
Definition double_quote : string := String (ascii_of_nat 34) "".
Definition newline : string := String (ascii_of_nat 10) "".

(** One member of a JSON object, and one that may be absent. *)
Definition json_member (key value : string) : string :=
  double_quote ++ key ++ double_quote ++ ":"
  ++ double_quote ++ value ++ double_quote.

Definition json_optional (key : string) (field : option string) : string :=
  match field with
  | Some value => "," ++ json_member key value
  | None => ""
  end.

(** The JSON object of a container, for values that need no escape. *)
Definition json_line (c : container) : string :=
  "{" ++ json_member "ID" (ID c) ++ "," ++ json_member "Names" (Names c)
  ++ "," ++ json_member "Status" (Status c)
  ++ json_optional "Ports" (Ports c) ++ json_optional "Labels" (Labels c)
  ++ "}".

(** A running container, an unhealthy one and an exited one without
    labels and ports. *)
Definition sample_b : container :=
  mkContainer "b7d1f0c2a9e4" "svc-b" "Up 5 minutes"
    (Some "0.0.0.0:8080->80/tcp, 0.0.0.0:8080->80/udp")
    (Some ("com.docker.compose.project=b," ++ Re.working_dir_key ++ "/var/b")).

Definition sample_a : container :=
  mkContainer "a3c5e7091b2d" "svc-a" "Up 3 hours (unhealthy)"
    (Some "")
    (Some (Re.working_dir_key ++ "/var/a,com.docker.compose.service=a")).

Definition sample_none : container :=
  mkContainer "c0ffee123456" "svc-none" "Exited (1) 2 hours ago" None None.

Definition samples : list container := [sample_b; sample_a; sample_none].

(** [json.loads] restricted to the three lines. *)
Definition sample_json_loads (line : string) : option container :=
  find (fun c => String.eqb (json_line c) line) samples.

(** The runtime: [docker ps] lists the three containers, [docker inspect]
    succeeds for [sample_a] only, whose start lies 7300 seconds back. *)
Definition sample_subprocess_run (cmd : list string) : run_result :=
  if String.eqb (nth 1 cmd "") "ps" then
    Completed (Py.join newline (map json_line samples) ++ newline)
  else if String.eqb (nth 2 cmd "") (ID sample_a) then
    Completed ("2026-01-01T00:00:00Z" ++ newline)
  else CalledProcessError "Command returned non-zero exit status 1.".

Definition sample_seconds_since (started_at : string) : option Z :=
  if String.eqb started_at "2026-01-01T00:00:00+00:00" then Some 7300%Z
  else None.

(** A runtime whose list command fails, and one without containers. *)
Definition failing_subprocess_run (cmd : list string) : run_result :=
  CalledProcessError "Command returned non-zero exit status 1.".

Definition idle_subprocess_run (cmd : list string) : run_result :=
  Completed newline.

(** ** Definitions for the further properties *)

(** The styles by the patterns of the raw status, in the order in which
    [get_simple_status] and [get_status_style] together decide them. *)
Definition style_priority : list (string * string) :=
  [("healthy", "bright_green"); ("starting", "bright_yellow");
   ("up", "bright_cyan"); ("exited", "bright_red")].

(** The first style of [table] whose pattern occurs in [s]. *)
Fixpoint first_style (table : list (string * string)) (s : string) : string :=
  match table with
  | [] => "white"
  | (pattern, st) :: table' =>
      if Py.contains pattern s then st else first_style table' s
  end.

(** The keywords [get_simple_status] can return. *)
Definition reachable_keywords : list string :=
  ["healthy"; "starting"; "running"; "stopped"; "error"; "dead"; "paused";
   "unknown"].

(** At the head of [s] stand the count [g], white space and [unit]: the
    pattern [(\d+)\s+unit], read as a statement about [s]. *)
Definition count_before (unit s g : string) : Prop :=
  exists ws rest,
    s = g ++ ws ++ unit ++ rest /\
    g <> "" /\ all_chars Py.is_digit g = true /\
    ws <> "" /\ all_chars Py.is_space ws = true.

(** The leftmost count before [unit] in [status] is [g], after [pre]. *)
Definition first_count (unit status pre g : string) : Prop :=
  (exists tail, status = pre ++ tail /\ count_before unit tail g) /\
  (forall i g', i < String.length pre ->
                ~ count_before unit (skip i status) g').

(** The character [x] does not occur in [s]. *)
Definition lacks (x : ascii) (s : string) : bool :=
  all_chars (fun c => negb (Ascii.eqb c x)) s.

(** The unit letter of the first time word that occurs in [status], in
    the order in which [parse_status_for_time] looks for them. *)
Definition first_unit (status : string) : option string :=
  if Py.contains "second" status then Some "s"
  else if Py.contains "minute" status then Some "m"
  else if Py.contains "hour" status then Some "h"
  else if Py.contains "day" status then Some "d"
  else None.

(** The characters of the ports column: digits and the comma. *)
Definition is_digit_or_comma (c : ascii) : bool :=
  Py.is_digit c || Ascii.eqb c ","%char.

(** [if line:] in the loop of [get_docker_containers]. *)
Definition nonblank (line : string) : bool := negb (String.eqb line "").

(** The last character of [s] is in the class [cls]. *)
Fixpoint last_is (cls : ascii -> bool) (s : string) : bool :=
  match s with
  | EmptyString => false
  | String c EmptyString => cls c
  | String _ s' => last_is cls s'
  end.

(** An output line as the runtime prints a JSON object: no line break
    inside and no white space at either end. *)
Definition clean_line (line : string) : bool :=
  negb (head_is Py.is_space line)
  && last_is (fun c => negb (Py.is_space c)) line
  && all_chars (fun c => negb (Ascii.eqb c "010"%char)) line.

(** The standard output that consists of the lines [lines], each ended
    by a line break. *)
Fixpoint lines_text (lines : list string) : string :=
  match lines with
  | [] => ""
  | line :: lines' => line ++ newline ++ lines_text lines'
  end.



(** Two sort keys are the same pair of strings. *)
Definition key_eqb (k1 k2 : string * string) : bool :=
  String.eqb (fst k1) (fst k2) && String.eqb (snd k1) (snd k2).

(** ** Facts about the string primitives *)

Lemma append_assoc (a b c : string) : (a ++ b) ++ c = a ++ b ++ c.
Proof.
  induction a as [|x a IH]; simpl; [reflexivity|].
  now rewrite IH.
Qed.

Lemma append_length (a b : string) :
  String.length (a ++ b) = String.length a + String.length b.
Proof.
  induction a as [|x a IH]; simpl; [reflexivity|].
  now rewrite IH.
Qed.

(** [prefix a s] holds exactly when [s] is [a] followed by something. *)
Lemma prefix_iff (a s : string) :
  prefix a s = true <-> exists q, s = a ++ q.
Proof.
  revert s. induction a as [|x a IH]; intros s; simpl.
  - destruct s; simpl; split; intros; eauto.
  - destruct s as [|y s]; simpl.
    + split; [discriminate|]. intros [q H]. discriminate.
    + destruct (ascii_dec x y) as [->|Hxy].
      * rewrite IH. split; intros [q H]; exists q.
        -- now rewrite H.
        -- now injection H.
      * split; [discriminate|]. intros [q H]. injection H as H1 H2.
        now elim Hxy.
Qed.

(** [sub in s] holds exactly when [s] splits around an occurrence. *)
Lemma contains_iff (sub s : string) :
  Py.contains sub s = true <-> exists p q, s = p ++ sub ++ q.
Proof.
  induction s as [|c s IH]; cbn [Py.contains].
  - rewrite orb_false_r, prefix_iff. split.
    + intros [q H]. now exists "", q.
    + intros [p [q H]]. destruct p; [now exists q | discriminate].
  - rewrite orb_true_iff, prefix_iff, IH. split.
    + intros [[q H] | [p [q H]]].
      * now exists "", q.
      * exists (String c p), q. simpl. now rewrite H.
    + intros [p [q H]]. destruct p as [|c' p]; simpl in H.
      * left. now exists q.
      * right. injection H as _ H. now exists p, q.
Qed.

(** An occurrence of [a ++ b] is an occurrence of [b]. *)
Lemma contains_app_r (a b s : string) :
  Py.contains (a ++ b) s = true -> Py.contains b s = true.
Proof.
  rewrite !contains_iff. intros [p [q H]].
  exists (p ++ a), q. now rewrite H, !append_assoc.
Qed.

Lemma contains_false_app_r (a b s : string) :
  Py.contains b s = false -> Py.contains (a ++ b) s = false.
Proof.
  intros H. destruct (Py.contains (a ++ b) s) eqn:E; [|reflexivity].
  apply contains_app_r in E. congruence.
Qed.

(** ** Status normalization *)

(** Two patterns of the normalizer end with an earlier pattern. *)
Lemma unhealthy_contains_healthy (s : string) :
  Py.contains "unhealthy" s = true -> Py.contains "healthy" s = true.
Proof. exact (contains_app_r "un" "healthy" s). Qed.

Lemma restarting_contains_starting (s : string) :
  Py.contains "restarting" s = true -> Py.contains "starting" s = true.
Proof. exact (contains_app_r "re" "starting" s). Qed.

Lemma exited_0_contains_exited (s : string) :
  Py.contains "exited (0)" s = true -> Py.contains "exited" s = true.
Proof.
  rewrite !contains_iff. intros [p [q H]].
  exists p, (" (0)" ++ q). now rewrite H.
Qed.

Lemma no_healthy_no_unhealthy (s : string) :
  Py.contains "healthy" s = false -> Py.contains "unhealthy" s = false.
Proof. exact (contains_false_app_r "un" "healthy" s). Qed.

Lemma no_starting_no_restarting (s : string) :
  Py.contains "starting" s = false -> Py.contains "restarting" s = false.
Proof. exact (contains_false_app_r "re" "starting" s). Qed.

Ltac split_ifs :=
  repeat match goal with
         | |- context [if ?b then _ else _] => destruct b
         end.

Lemma get_simple_status_first_match (status : string) :
  get_simple_status status = first_match status_priority (Py.lower status).
Proof. reflexivity. Qed.

Lemma first_match_in (table : list (string * string)) (s : string) :
  first_match table s = "unknown" \/ In (first_match table s) (map snd table).
Proof.
  induction table as [|[pattern keyword] table IH]; simpl.
  - now left.
  - destruct (Py.contains pattern s); [right; now left|].
    destruct IH as [IH|IH]; [now left | right; now right].
Qed.

Lemma first_match_none (table : list (string * string)) (s : string) :
  forallb (fun p => negb (Py.contains (fst p) s)) table = true ->
  first_match table s = "unknown".
Proof.
  induction table as [|[pattern keyword] table IH]; simpl; [reflexivity|].
  rewrite andb_true_iff, negb_true_iff. intros [-> H]. now apply IH.
Qed.

(** C1 (the code departs from the specification): a status whose lower-casing
    contains "unhealthy" also contains "healthy", and the test for
    "healthy" comes first.  So [get_simple_status] answers "healthy" for
    "Up 3 hours (unhealthy)" and for every such status, and never answers
    "unhealthy". *)
Theorem get_simple_status_unhealthy_is_healthy :
  get_simple_status "Up 3 hours (unhealthy)" = "healthy" /\
  (forall status,
      Py.contains "unhealthy" (Py.lower status) = true ->
      get_simple_status status = "healthy") /\
  (forall status, get_simple_status status <> "unhealthy").
Proof.
  split; [reflexivity|]. split.
  - intros status H. unfold get_simple_status.
    now rewrite (unhealthy_contains_healthy _ H).
  - intros status. unfold get_simple_status.
    destruct (Py.contains "healthy" (Py.lower status)) eqn:E; [discriminate|].
    rewrite (no_healthy_no_unhealthy _ E).
    split_ifs; discriminate.
Qed.

Lemma get_simple_status_unhealthy_is_healthy_witness :
  Py.contains "unhealthy" (Py.lower "Up 2 days (Unhealthy)") = true /\
  get_simple_status "Up 2 days (Unhealthy)" = "healthy".
Proof.
  split; [reflexivity|].
  apply (proj1 (proj2 get_simple_status_unhealthy_is_healthy)).
  reflexivity.
Defined.

(** C5: [get_simple_status] is total into the ten keywords; it is the
    first match of the lower-cased status in the priority table, where
    "exited (0)" stands before "exited"; a status that matches no pattern
    is "unknown"; "Exited (0) 2 hours ago" is "stopped", "Exited (1) 2
    hours ago" is "error" and "Up 5 minutes" is "running". *)
Theorem get_simple_status_total_priority :
  (forall status, In (get_simple_status status) status_keywords) /\
  (forall status,
      get_simple_status status
      = first_match status_priority (Py.lower status)) /\
  (forall status,
      forallb (fun p => negb (Py.contains (fst p) (Py.lower status)))
        status_priority = true ->
      get_simple_status status = "unknown") /\
  (forall status,
      forallb (fun p => negb (Py.contains p (Py.lower status)))
        ["healthy"; "unhealthy"; "starting"; "up"] = true ->
      Py.contains "exited (0)" (Py.lower status) = true ->
      Py.contains "exited" (Py.lower status) = true /\
      get_simple_status status = "stopped") /\
  get_simple_status "Exited (0) 2 hours ago" = "stopped" /\
  get_simple_status "Exited (1) 2 hours ago" = "error" /\
  get_simple_status "Up 5 minutes" = "running" /\
  get_simple_status "Created" = "unknown".
Proof.
  split; [|split; [|split; [|split]]].
  - intros status. rewrite get_simple_status_first_match.
    destruct (first_match_in status_priority (Py.lower status)) as [H|H].
    + rewrite H. simpl. tauto.
    + simpl in H. simpl. tauto.
  - exact get_simple_status_first_match.
  - intros status H. rewrite get_simple_status_first_match.
    now apply first_match_none.
  - intros status H E. split.
    + now apply exited_0_contains_exited.
    + simpl in H. rewrite !andb_true_iff, !negb_true_iff in H.
      destruct H as (H1 & H2 & H3 & H4 & _).
      unfold get_simple_status. now rewrite H1, H2, H3, H4, E.
  - repeat split; reflexivity.
Qed.

Lemma get_simple_status_total_priority_witness :
  get_simple_status "Removal In Progress" = "unknown" /\
  get_simple_status "EXITED (0) 3 weeks ago" = "stopped".
Proof.
  split.
  - apply (proj1 (proj2 (proj2 get_simple_status_total_priority))).
    reflexivity.
  - apply (proj1 (proj2 (proj2 (proj2 get_simple_status_total_priority))));
      reflexivity.
Defined.

(** C10: [get_simple_status] never answers "restarting".  A lower-cased
    status that contains "restarting" contains "starting", whose test
    comes earlier: the answer is "starting", or "healthy" when that
    earlier pattern occurs too. *)
Theorem get_simple_status_never_restarting :
  (forall status, get_simple_status status <> "restarting") /\
  (forall status,
      Py.contains "restarting" (Py.lower status) = true ->
      Py.contains "starting" (Py.lower status) = true /\
      get_simple_status status
      = if Py.contains "healthy" (Py.lower status) then "healthy"
        else "starting").
Proof.
  split.
  - intros status. unfold get_simple_status.
    destruct (Py.contains "starting" (Py.lower status)) eqn:E.
    + split_ifs; discriminate.
    + rewrite (no_starting_no_restarting _ E).
      split_ifs; discriminate.
  - intros status H.
    pose proof (restarting_contains_starting _ H) as E.
    split; [exact E|]. unfold get_simple_status.
    destruct (Py.contains "healthy" (Py.lower status)) eqn:Hh; [reflexivity|].
    now rewrite (no_healthy_no_unhealthy _ Hh), E.
Qed.

Lemma get_simple_status_never_restarting_witness :
  Py.contains "restarting" (Py.lower "Restarting (1) 5 seconds ago") = true /\
  get_simple_status "Restarting (1) 5 seconds ago" = "starting".
Proof.
  split; [reflexivity|].
  apply (proj2 get_simple_status_never_restarting). reflexivity.
Defined.

(** ** Uptime formatting *)

Lemma format_uptime_by_units (n : Z) :
  format_uptime n = format_by_units uptime_units n.
Proof.
  unfold format_uptime, uptime_units, format_by_units.
  now rewrite Z.div_1_r.
Qed.

(** Floor division, stated by its bracket. *)
Lemma floor_div_unique (n d q : Z) :
  (0 < d)%Z -> (d * q <= n < d * (q + 1))%Z -> (n / d)%Z = q.
Proof.
  intros Hd H. symmetry. apply (Z.div_unique n d q (n - d * q)); lia.
Qed.

Lemma spaces_length (n : nat) : String.length (Py.spaces n) = n.
Proof. induction n as [|n IH]; simpl; [reflexivity | now rewrite IH]. Qed.

Lemma format_2d_length (n : Z) :
  String.length (Py.format_2d n)
  = Nat.max 2 (String.length (Py.str_of_int n)).
Proof.
  unfold Py.format_2d, Py.rjust. rewrite append_length, spaces_length. lia.
Qed.

(** C4 (as stated it fails): the specification formats 45 seconds with a
    leading space, but the number already fills the two-character
    field. *)
Lemma format_uptime_45_fills_field :
  format_uptime 45 = "45 s" /\ format_uptime 45 <> " 45 s".
Proof. split; [reflexivity | discriminate]. Qed.

(** C4 (amended): [format_uptime] follows the threshold table with floor
    division, the count right-justified in a field of at least two
    characters; 45 gives "45 s", 125 " 2 m", 7300 " 2 h", 200000 " 2 d",
    5200000 " 2 mo" and 70000000 " 2 y". *)
Theorem format_uptime_thresholds :
  (forall n, format_uptime n = format_by_units uptime_units n) /\
  (forall n, (n < 60)%Z -> format_uptime n = Py.format_2d n ++ " s") /\
  (forall n q, (60 <= n < 3600)%Z -> (60 * q <= n < 60 * (q + 1))%Z ->
               format_uptime n = Py.format_2d q ++ " m") /\
  (forall n q, (3600 <= n < 86400)%Z ->
               (3600 * q <= n < 3600 * (q + 1))%Z ->
               format_uptime n = Py.format_2d q ++ " h") /\
  (forall n q, (86400 <= n < 2592000)%Z ->
               (86400 * q <= n < 86400 * (q + 1))%Z ->
               format_uptime n = Py.format_2d q ++ " d") /\
  (forall n q, (2592000 <= n < 31536000)%Z ->
               (2592000 * q <= n < 2592000 * (q + 1))%Z ->
               format_uptime n = Py.format_2d q ++ " mo") /\
  (forall n q, (31536000 <= n)%Z ->
               (31536000 * q <= n < 31536000 * (q + 1))%Z ->
               format_uptime n = Py.format_2d q ++ " y") /\
  (forall n,
      Py.format_2d n
      = Py.spaces (2 - String.length (Py.str_of_int n)) ++ Py.str_of_int n /\
      String.length (Py.format_2d n)
      = Nat.max 2 (String.length (Py.str_of_int n))) /\
  map format_uptime [45; 125; 7300; 200000; 5200000; 70000000]%Z
  = ["45 s"; " 2 m"; " 2 h"; " 2 d"; " 2 mo"; " 2 y"].
Proof.
  assert (Hlt : forall a b, (a < b)%Z -> (a <? b)%Z = true)
    by (intros; now apply Z.ltb_lt).
  assert (Hge : forall a b, (b <= a)%Z -> (a <? b)%Z = false)
    by (intros; now apply Z.ltb_ge).
  split; [exact format_uptime_by_units|].
  split; [intros n H; unfold format_uptime; now rewrite Hlt|].
  split.
  { intros n q H Hq. unfold format_uptime.
    rewrite Hge, Hlt, (floor_div_unique n 60 q) by lia. reflexivity. }
  split.
  { intros n q H Hq. unfold format_uptime.
    rewrite !Hge, Hlt, (floor_div_unique n 3600 q) by lia. reflexivity. }
  split.
  { intros n q H Hq. unfold format_uptime.
    rewrite !Hge, Hlt, (floor_div_unique n 86400 q) by lia. reflexivity. }
  split.
  { intros n q H Hq. unfold format_uptime.
    rewrite !Hge, Hlt, (floor_div_unique n 2592000 q) by lia. reflexivity. }
  split.
  { intros n q H Hq. unfold format_uptime.
    rewrite !Hge, (floor_div_unique n 31536000 q) by lia. reflexivity. }
  split; [|reflexivity].
  intros n. split; [reflexivity | apply format_2d_length].
Qed.

Lemma format_uptime_thresholds_witness :
  format_uptime 59 = "59 s" /\ format_uptime 3599 = "59 m" /\
  format_uptime 86399 = "23 h" /\ format_uptime 2591999 = "29 d" /\
  format_uptime 31535999 = "12 mo" /\ format_uptime 31536000 = " 1 y".
Proof.
  pose proof format_uptime_thresholds
    as (_ & Hs & Hm & Hh & Hd & Hmo & Hy & _).
  repeat apply conj.
  - apply (Hs 59%Z). lia.
  - apply (Hm 3599%Z 59%Z); lia.
  - apply (Hh 86399%Z 23%Z); lia.
  - apply (Hd 2591999%Z 29%Z); lia.
  - apply (Hmo 31535999%Z 12%Z); lia.
  - apply (Hy 31536000%Z 1%Z); lia.
Defined.

(** ** Facts about the matchers *)

Lemma strip_prefix_app (lit t : string) :
  Re.strip_prefix lit (lit ++ t) = Some t.
Proof.
  induction lit as [|a lit IH]; simpl; [reflexivity|].
  now rewrite Ascii.eqb_refl.
Qed.

Lemma strip_prefix_some (lit s t : string) :
  Re.strip_prefix lit s = Some t -> s = lit ++ t.
Proof.
  revert s. induction lit as [|a lit IH]; intros s; simpl.
  - now intros [= ->].
  - destruct s as [|b s]; [discriminate|].
    destruct (Ascii.eqb_spec a b) as [->|_]; [|discriminate].
    intros H. now rewrite (IH _ H).
Qed.

Lemma take_drop_while (cls : ascii -> bool) (s : string) :
  Py.take_while cls s ++ Py.drop_while cls s = s.
Proof.
  induction s as [|c s IH]; simpl; [reflexivity|].
  destruct (cls c); simpl; [now rewrite IH | reflexivity].
Qed.

Lemma take_while_all (cls : ascii -> bool) (s : string) :
  all_chars cls (Py.take_while cls s) = true.
Proof.
  induction s as [|c s IH]; simpl; [reflexivity|].
  destruct (cls c) eqn:E; simpl; [now rewrite E | reflexivity].
Qed.

Lemma drop_while_head (cls : ascii -> bool) (s : string) :
  head_is cls (Py.drop_while cls s) = false.
Proof.
  induction s as [|c s IH]; simpl; [reflexivity|].
  destruct (cls c) eqn:E; simpl; [exact IH | exact E].
Qed.

Lemma take_while_app (cls : ascii -> bool) (g rest : string) :
  all_chars cls g = true -> head_is cls rest = false ->
  Py.take_while cls (g ++ rest) = g /\ Py.drop_while cls (g ++ rest) = rest.
Proof.
  intros Hg Hrest. induction g as [|c g IH]; simpl in *.
  - destruct rest as [|c rest]; simpl in *; [now split|].
    now rewrite Hrest.
  - apply andb_true_iff in Hg as [Hc Hg]. rewrite Hc.
    destruct (IH Hg) as [-> ->]. now split.
Qed.

Lemma take_while_empty (cls : ascii -> bool) (s : string) :
  Py.take_while cls s = "" <-> head_is cls s = false.
Proof.
  destruct s as [|c s]; simpl; [tauto|].
  destruct (cls c); split; intros; congruence.
Qed.

Lemma run_plus_none (cls : ascii -> bool) (s : string) :
  Re.run_plus cls s = None <-> head_is cls s = false.
Proof.
  unfold Re.run_plus. rewrite <- take_while_empty.
  destruct (Py.take_while cls s); split; intros; congruence.
Qed.

Lemma run_plus_some (cls : ascii -> bool) (s g rest : string) :
  Re.run_plus cls s = Some (g, rest) ->
  s = g ++ rest /\ g <> "" /\ all_chars cls g = true /\
  head_is cls rest = false.
Proof.
  unfold Re.run_plus. intros H.
  pose proof (take_drop_while cls s) as Hs.
  pose proof (take_while_all cls s) as Ha.
  pose proof (drop_while_head cls s) as Hd.
  destruct (Py.take_while cls s) as [|c r]; [discriminate|].
  injection H as <- <-. repeat split; auto. discriminate.
Qed.

Lemma run_plus_app (cls : ascii -> bool) (g rest : string) :
  g <> "" -> all_chars cls g = true -> head_is cls rest = false ->
  Re.run_plus cls (g ++ rest) = Some (g, rest).
Proof.
  intros Hne Hg Hrest. unfold Re.run_plus.
  destruct (take_while_app cls g rest Hg Hrest) as [-> ->].
  destruct g; [now elim Hne | reflexivity].
Qed.

Lemma lit_then_run_app (lit : string) (cls : ascii -> bool) (g rest : string) :
  g <> "" -> all_chars cls g = true -> head_is cls rest = false ->
  Re.lit_then_run lit cls (lit ++ g ++ rest) = Some (g, rest).
Proof.
  intros. unfold Re.lit_then_run. rewrite strip_prefix_app.
  now apply run_plus_app.
Qed.

Lemma lit_then_run_some (lit : string) (cls : ascii -> bool)
  (s g rest : string) :
  Re.lit_then_run lit cls s = Some (g, rest) ->
  s = lit ++ g ++ rest /\ g <> "" /\ all_chars cls g = true /\
  head_is cls rest = false.
Proof.
  unfold Re.lit_then_run.
  destruct (Re.strip_prefix lit s) as [t|] eqn:E; [|discriminate].
  intros H. apply run_plus_some in H as (-> & H).
  now rewrite (strip_prefix_some _ _ _ E).
Qed.

(** No match at the head of [s]: [lit] is not there, or no character of
    the class follows it. *)
Lemma lit_then_run_none (lit : string) (cls : ascii -> bool) (s : string) :
  Re.lit_then_run lit cls s = None <->
  (forall q, s = lit ++ q -> head_is cls q = false).
Proof.
  unfold Re.lit_then_run. split.
  - intros H q ->. rewrite strip_prefix_app in H. now apply run_plus_none.
  - intros H. destruct (Re.strip_prefix lit s) as [t|] eqn:E; [|reflexivity].
    apply run_plus_none, H. now apply strip_prefix_some.
Qed.

Lemma lit_then_run_shrinks (lit : string) (cls : ascii -> bool) :
  shrinks (Re.lit_then_run lit cls).
Proof.
  intros s g rest H. apply lit_then_run_some in H as (-> & Hne & _).
  rewrite !append_length. destruct g; [now elim Hne | simpl; lia].
Qed.

Section Scanning.

Context {A : Type} (match_at : string -> option A).

(** No match begins inside [pre]: the search passes over it. *)
Lemma search_skip (pre x : string) :
  (forall p1 p2, pre = p1 ++ p2 -> p2 <> "" -> match_at (p2 ++ x) = None) ->
  Re.search match_at (pre ++ x) = Re.search match_at x.
Proof.
  induction pre as [|c pre IH]; intros H; [reflexivity|].
  cbn [append Re.search].
  change (String c (pre ++ x)) with (String c pre ++ x).
  rewrite (H "" (String c pre) eq_refl) by discriminate.
  apply IH. intros p1 p2 -> Hne. now apply (H (String c p1) p2).
Qed.

Lemma search_none (s : string) :
  (forall p q, s = p ++ q -> match_at q = None) ->
  Re.search match_at s = None.
Proof.
  induction s as [|c s IH]; intros H; cbn [Re.search].
  - now rewrite (H "" "" eq_refl).
  - rewrite (H "" (String c s) eq_refl).
    apply IH. intros p q ->. now apply (H (String c p) q).
Qed.

Lemma search_here (s : string) (r : A) :
  match_at s = Some r -> Re.search match_at s = Some r.
Proof. intros H. destruct s; cbn [Re.search]; now rewrite H. Qed.

End Scanning.

Section FindAll.

Variable match_at : string -> option (string * string).
Hypothesis match_shrinks : shrinks match_at.

(** Any fuel from the length of the string on gives the same matches. *)
Lemma findall_fuel_enough (n1 n2 : nat) (s : string) :
  String.length s <= n1 -> String.length s <= n2 ->
  Re.findall_fuel match_at n1 s = Re.findall_fuel match_at n2 s.
Proof.
  revert n2 s. induction n1 as [|n1 IH]; intros n2 s H1 H2.
  - destruct s; [|simpl in H1; lia].
    destruct n2; [reflexivity|]. cbn [Re.findall_fuel].
    destruct (match_at "") as [[g rest]|] eqn:E; [|reflexivity].
    apply match_shrinks in E. simpl in E. lia.
  - destruct n2 as [|n2].
    + destruct s; [|simpl in H2; lia]. cbn [Re.findall_fuel].
      destruct (match_at "") as [[g rest]|] eqn:E; [|reflexivity].
      apply match_shrinks in E. simpl in E. lia.
    + cbn [Re.findall_fuel].
      destruct (match_at s) as [[g rest]|] eqn:E.
      * apply match_shrinks in E. f_equal. apply IH; lia.
      * destruct s as [|c s]; [reflexivity|]. simpl in H1, H2.
        apply IH; lia.
Qed.

(** The equation of [re.findall]: free of fuel. *)
Lemma findall_unfold (s : string) :
  Re.findall match_at s =
  match match_at s with
  | Some (g, rest) => g :: Re.findall match_at rest
  | None =>
      match s with
      | EmptyString => []
      | String _ s' => Re.findall match_at s'
      end
  end.
Proof.
  unfold Re.findall. destruct s as [|c s].
  - cbn [String.length Re.findall_fuel].
    destruct (match_at "") as [[g rest]|] eqn:E; [|reflexivity].
    apply match_shrinks in E. simpl in E. lia.
  - cbn [String.length Re.findall_fuel].
    destruct (match_at (String c s)) as [[g rest]|] eqn:E; [|reflexivity].
    apply match_shrinks in E. simpl in E. f_equal.
    apply findall_fuel_enough; lia.
Qed.

Lemma findall_skip (pre x : string) :
  (forall p1 p2, pre = p1 ++ p2 -> p2 <> "" -> match_at (p2 ++ x) = None) ->
  Re.findall match_at (pre ++ x) = Re.findall match_at x.
Proof.
  induction pre as [|c pre IH]; intros H; [reflexivity|].
  rewrite findall_unfold.
  rewrite (H "" (String c pre) eq_refl) by discriminate.
  cbn [append]. apply IH. intros p1 p2 -> Hne. now apply (H (String c p1) p2).
Qed.

Lemma findall_none (s : string) :
  (forall p q, s = p ++ q -> match_at q = None) ->
  Re.findall match_at s = [].
Proof.
  induction s as [|c s IH]; intros H; rewrite findall_unfold.
  - now rewrite (H "" "" eq_refl).
  - rewrite (H "" (String c s) eq_refl).
    apply IH. intros p q ->. now apply (H (String c p) q).
Qed.

End FindAll.

(** ** Working directory *)

Lemma length_app_lt (p1 p2 : string) :
  p2 <> "" -> String.length p1 < String.length (p1 ++ p2).
Proof.
  intros H. rewrite append_length. destruct p2; [now elim H | simpl; lia].
Qed.

(** The hypothesis on the occurrences before a match, in the form the
    scanning lemmas use. *)
Lemma no_earlier_match (lit : string) (cls : ascii -> bool) (pre x : string) :
  (forall i after,
      i < String.length pre -> occurs_at lit (pre ++ x) i after ->
      head_is cls after = false) ->
  forall p1 p2, pre = p1 ++ p2 -> p2 <> "" ->
                Re.lit_then_run lit cls (p2 ++ x) = None.
Proof.
  intros H p1 p2 -> Hne. apply lit_then_run_none. intros q Hq.
  apply (H (String.length p1) q); [now apply length_app_lt|].
  exists p1. split; [|reflexivity]. now rewrite append_assoc, Hq.
Qed.

Lemma no_match_anywhere (lit : string) (cls : ascii -> bool) (s : string) :
  (forall i after, occurs_at lit s i after -> head_is cls after = false) ->
  forall p q, s = p ++ q -> Re.lit_then_run lit cls q = None.
Proof.
  intros H p q ->. apply lit_then_run_none. intros after ->.
  apply (H (String.length p) after). now exists p.
Qed.

(** An occurrence at a known offset can be checked by evaluation. *)
Lemma occurs_at_skip (sub s : string) (i : nat) (after : string) :
  occurs_at sub s i after -> Re.strip_prefix sub (skip i s) = Some after.
Proof.
  intros [p [-> <-]]. induction p as [|c p IH]; cbn [String.length append skip].
  - apply strip_prefix_app.
  - exact IH.
Qed.

Lemma not_contains_no_occurrence (sub s : string) :
  Py.contains sub s = false -> forall i after, ~ occurs_at sub s i after.
Proof.
  intros H i after [p [Hp _]].
  assert (E : Py.contains sub s = true) by (apply contains_iff; eauto).
  congruence.
Qed.

(** C7: for labels whose first [working_dir] key with a value stands
    after [pre] (every earlier occurrence of the key is followed by a
    comma), [get_working_dir] returns that value: the characters after
    "=" up to the next comma or the end of the string.  Labels without
    the key, labels in which every occurrence of the key is followed by a
    comma or by the end, and empty labels give the empty string. *)
Theorem get_working_dir_first_value :
  get_working_dir "" = "" /\
  (forall labels,
      Py.contains Re.working_dir_key labels = false ->
      get_working_dir labels = "") /\
  (forall labels,
      (forall i after,
          occurs_at Re.working_dir_key labels i after ->
          head_is Re.not_comma after = false) ->
      get_working_dir labels = "") /\
  (forall pre value rest,
      (forall i after,
          i < String.length pre ->
          occurs_at Re.working_dir_key
            (pre ++ Re.working_dir_key ++ value ++ rest) i after ->
          head_is Re.not_comma after = false) ->
      value <> "" ->
      all_chars Re.not_comma value = true ->
      head_is Re.not_comma rest = false ->
      get_working_dir (pre ++ Re.working_dir_key ++ value ++ rest) = value).
Proof.
  assert (Hnone : forall labels,
             (forall i after,
                 occurs_at Re.working_dir_key labels i after ->
                 head_is Re.not_comma after = false) ->
             get_working_dir labels = "").
  { intros labels H. unfold get_working_dir.
    destruct (String.eqb labels ""); [reflexivity|].
    rewrite search_none; [reflexivity|].
    intros p q Hpq. unfold Re.working_dir_at.
    now rewrite (no_match_anywhere _ _ _ H p q Hpq). }
  split; [reflexivity|]. split; [|split; [exact Hnone|]].
  - intros labels H. apply Hnone. intros i after Ho.
    now elim (not_contains_no_occurrence _ _ H i after).
  - intros pre value rest Hpre Hne Hvalue Hrest. unfold get_working_dir.
    replace (String.eqb (pre ++ Re.working_dir_key ++ value ++ rest) "")
      with false by (now destruct pre).
    rewrite search_skip.
    + rewrite (search_here _ _ value); [reflexivity|].
      unfold Re.working_dir_at. now rewrite lit_then_run_app.
    + intros p1 p2 Hp Hp2. unfold Re.working_dir_at.
      now rewrite (no_earlier_match _ _ _ _ Hpre p1 p2 Hp Hp2).
Qed.

Lemma get_working_dir_first_value_witness :
  get_working_dir
    ("maintainer=ops," ++ Re.working_dir_key ++ "/opt/web"
     ++ ",com.docker.compose.service=db") = "/opt/web" /\
  get_working_dir "maintainer=ops,com.docker.compose.service=db" = "".
Proof.
  pose proof get_working_dir_first_value as (_ & Hno & _ & Hfirst).
  split.
  - apply (Hfirst "maintainer=ops," "/opt/web"
             ",com.docker.compose.service=db"); try reflexivity;
      [|discriminate].
    intros i after Hi Ho. apply occurs_at_skip in Ho. simpl in Hi.
    do 15 (destruct i as [|i]; [discriminate Ho|]). lia.
  - apply Hno. reflexivity.
Defined.

(** ** External ports *)

Lemma external_port_at_shrinks : shrinks Re.external_port_at.
Proof. apply lit_then_run_shrinks. Qed.

Lemma findall_fuel_groups (n : nat) (s : string) :
  Forall (fun g => g <> "") (Re.findall_fuel Re.external_port_at n s).
Proof.
  revert s. induction n as [|n IH]; intros s; cbn [Re.findall_fuel].
  - constructor.
  - destruct (Re.external_port_at s) as [[g rest]|] eqn:E.
    + constructor; [|apply IH].
      now apply lit_then_run_some in E as (_ & Hne & _).
    + destruct s; [constructor | apply IH].
Qed.

(** The extractor joins the groups of all matches. *)
Lemma extract_external_ports_join (ports_str : string) :
  extract_external_ports ports_str
  = Py.join "," (Re.findall Re.external_port_at ports_str).
Proof.
  unfold extract_external_ports.
  destruct (String.eqb_spec ports_str "") as [->|_]; [reflexivity|].
  now destruct (Re.findall Re.external_port_at ports_str).
Qed.

Lemma join_cons (sep g : string) (l : list string) :
  Py.join sep (g :: l)
  = match l with
    | [] => g
    | _ :: _ => g ++ sep ++ Py.join sep l
    end.
Proof. now destruct l. Qed.

Lemma extract_external_ports_empty_iff (s : string) :
  extract_external_ports s = "" <-> Re.findall Re.external_port_at s = [].
Proof.
  rewrite extract_external_ports_join. split; [|now intros ->].
  pose proof (findall_fuel_groups (String.length s) s) as H.
  fold (Re.findall Re.external_port_at s) in H.
  destruct (Re.findall Re.external_port_at s) as [|g l]; [reflexivity|].
  inversion H as [|? ? Hg _]; subst. rewrite join_cons.
  destruct g; [now elim Hg|]. destruct l; discriminate.
Qed.

(** C3 (as stated it fails): a port published twice is listed twice; the
    specification lists each distinct port once, here "80". *)
Lemma extract_external_ports_keeps_repeats :
  extract_external_ports "0.0.0.0:80->80/tcp, 0.0.0.0:80->80/udp" = "80,80"
  /\ extract_external_ports "0.0.0.0:80->80/tcp, 0.0.0.0:80->80/udp" <> "80".
Proof. split; [reflexivity | discriminate]. Qed.

(** C3 (amended): the extractor returns the port of every match of
    "0.0.0.0:<port>", comma-joined from left to right, a port repeated
    as often as it is matched.  For a string whose first match stands
    after [pre] (every earlier "0.0.0.0:" has no digit after it) with the
    digits [port], the result is [port], followed by a comma and the
    result for the text after the match when that is not empty.  A
    string without a match and the empty string give the empty string. *)
Theorem extract_external_ports_all_matches :
  extract_external_ports "" = "" /\
  (forall ports_str,
      Py.contains Re.port_literal ports_str = false ->
      extract_external_ports ports_str = "") /\
  (forall ports_str,
      (forall i after,
          occurs_at Re.port_literal ports_str i after ->
          head_is Py.is_digit after = false) ->
      extract_external_ports ports_str = "") /\
  (forall pre port rest,
      (forall i after,
          i < String.length pre ->
          occurs_at Re.port_literal
            (pre ++ Re.port_literal ++ port ++ rest) i after ->
          head_is Py.is_digit after = false) ->
      port <> "" ->
      all_chars Py.is_digit port = true ->
      head_is Py.is_digit rest = false ->
      extract_external_ports (pre ++ Re.port_literal ++ port ++ rest)
      = if String.eqb (extract_external_ports rest) "" then port
        else port ++ "," ++ extract_external_ports rest) /\
  extract_external_ports "0.0.0.0:80->80/tcp, 0.0.0.0:80->80/udp" = "80,80"
  /\ extract_external_ports "0.0.0.0:8080->80/tcp, 0.0.0.0:8443->443/tcp"
     = "8080,8443".
Proof.
  assert (Hnone : forall ports_str,
             (forall i after,
                 occurs_at Re.port_literal ports_str i after ->
                 head_is Py.is_digit after = false) ->
             extract_external_ports ports_str = "").
  { intros s H. rewrite extract_external_ports_join.
    rewrite findall_none; [reflexivity | apply external_port_at_shrinks|].
    exact (no_match_anywhere _ _ _ H). }
  split; [reflexivity|]. split; [|split; [exact Hnone|split]].
  - intros s H. apply Hnone. intros i after Ho.
    now elim (not_contains_no_occurrence _ _ H i after).
  - intros pre port rest Hpre Hne Hport Hrest.
    rewrite extract_external_ports_join.
    rewrite findall_skip;
      [|apply external_port_at_shrinks | exact (no_earlier_match _ _ _ _ Hpre)].
    rewrite findall_unfold by apply external_port_at_shrinks.
    unfold Re.external_port_at at 1.
    rewrite lit_then_run_app by assumption.
    rewrite join_cons.
    destruct (String.eqb_spec (extract_external_ports rest) "") as [E|E].
    + apply extract_external_ports_empty_iff in E. now rewrite E.
    + rewrite extract_external_ports_join in *.
      destruct (Re.findall Re.external_port_at rest); [now elim E|].
      reflexivity.
  - split; reflexivity.
Qed.

Lemma extract_external_ports_all_matches_witness :
  extract_external_ports ("::1:53, 0.0.0.0:" ++ "53" ++ "->53/udp")
  = "53" /\
  extract_external_ports ":::8080->80/tcp" = "".
Proof.
  pose proof extract_external_ports_all_matches as (_ & Hno & _ & Hfirst & _).
  split.
  - apply (Hfirst "::1:53, " "53" "->53/udp"); try reflexivity;
      [|discriminate].
    intros i after Hi Ho. apply occurs_at_skip in Ho. simpl in Hi.
    do 8 (destruct i as [|i]; [discriminate Ho|]). lia.
  - apply Hno. reflexivity.
Defined.

(** ** The order of strings and of sort keys *)

Lemma ascii_compare_refl (a : ascii) : Ascii.compare a a = Eq.
Proof. unfold Ascii.compare. apply N.compare_refl. Qed.

Lemma ascii_compare_lt_trans (a b c : ascii) :
  Ascii.compare a b = Lt -> Ascii.compare b c = Lt -> Ascii.compare a c = Lt.
Proof.
  unfold Ascii.compare. rewrite !N.compare_lt_iff. apply N.lt_trans.
Qed.

Lemma string_compare_refl (s : string) : String.compare s s = Eq.
Proof.
  induction s as [|a s IH]; simpl; [reflexivity|].
  now rewrite ascii_compare_refl.
Qed.

Lemma string_compare_lt_trans (s1 s2 s3 : string) :
  String.compare s1 s2 = Lt -> String.compare s2 s3 = Lt ->
  String.compare s1 s3 = Lt.
Proof.
  revert s2 s3.
  induction s1 as [|a s1 IH]; intros [|b s2] [|c s3]; simpl;
    try easy.
  destruct (Ascii.compare a b) eqn:Eab; try easy;
    destruct (Ascii.compare b c) eqn:Ebc; try easy; intros H1 H2.
  - apply Ascii.compare_eq_iff in Eab, Ebc. subst.
    rewrite ascii_compare_refl. now apply (IH s2).
  - apply Ascii.compare_eq_iff in Eab. subst. now rewrite Ebc.
  - apply Ascii.compare_eq_iff in Ebc. subst. now rewrite Eab.
  - now rewrite (ascii_compare_lt_trans a b c).
Qed.

Lemma string_ltb_trans (s1 s2 s3 : string) :
  String.ltb s1 s2 = true -> String.ltb s2 s3 = true ->
  String.ltb s1 s3 = true.
Proof.
  unfold String.ltb. intros H1 H2.
  rewrite (string_compare_lt_trans s1 s2 s3); [reflexivity| |].
  - now destruct (String.compare s1 s2).
  - now destruct (String.compare s2 s3).
Qed.

Lemma string_leb_cases (s1 s2 : string) :
  String.leb s1 s2 = true <-> String.ltb s1 s2 = true \/ s1 = s2.
Proof.
  unfold String.leb, String.ltb. split.
  - destruct (String.compare s1 s2) eqn:E; try easy; [|now left].
    right. now apply String.compare_eq_iff.
  - intros [H| ->]; [|now rewrite string_compare_refl].
    now destruct (String.compare s1 s2).
Qed.

Lemma string_leb_trans (s1 s2 s3 : string) :
  String.leb s1 s2 = true -> String.leb s2 s3 = true ->
  String.leb s1 s3 = true.
Proof.
  rewrite !string_leb_cases. intros [H1| ->] [H2| ->]; auto.
  left. now apply (string_ltb_trans s1 s2 s3).
Qed.

Lemma string_ltb_false (s1 s2 : string) :
  String.ltb s1 s2 = false -> String.leb s2 s1 = true.
Proof.
  unfold String.ltb, String.leb. rewrite (String.compare_antisym s1 s2).
  now destruct (String.compare s2 s1).
Qed.

Lemma string_ltb_irrefl (s : string) : String.ltb s s = false.
Proof. unfold String.ltb. now rewrite string_compare_refl. Qed.

Lemma pair_le_trans (x y z : string * string) :
  pair_le x y -> pair_le y z -> pair_le x z.
Proof.
  unfold pair_le. intros [H1|[E1 H1]] [H2|[E2 H2]].
  - left. now apply (string_ltb_trans _ (fst y)).
  - left. now rewrite <- E2.
  - left. now rewrite E1.
  - right. split; [congruence|]. now apply (string_leb_trans _ (snd y)).
Qed.

(** The two outcomes of the comparison the sort makes. *)
Lemma pair_ltb_true (x y : string * string) :
  Py.pair_ltb x y = true -> pair_le x y.
Proof.
  unfold Py.pair_ltb, pair_le.
  destruct (String.eqb_spec (fst x) (fst y)) as [E|E]; intros H.
  - right. split; [exact E|]. apply string_leb_cases. now left.
  - now left.
Qed.

Lemma pair_ltb_false (x y : string * string) :
  Py.pair_ltb x y = false -> pair_le y x.
Proof.
  unfold Py.pair_ltb, pair_le.
  destruct (String.eqb_spec (fst x) (fst y)) as [E|E]; intros H.
  - right. split; [easy|]. now apply string_ltb_false.
  - left. apply string_ltb_false, string_leb_cases in H.
    destruct H as [H|H]; [exact H | now elim E].
Qed.

(** ** The sort *)

Lemma insert_by_key_perm (x : row_data) (l : list row_data) :
  Permutation (x :: l) (insert_by_key x l).
Proof.
  induction l as [|y l IH]; simpl; [reflexivity|].
  destruct (Py.pair_ltb (sort_key y) (sort_key x)); [|reflexivity].
  rewrite perm_swap. now constructor.
Qed.

Lemma sort_by_key_perm (l : list row_data) : Permutation l (sort_by_key l).
Proof.
  induction l as [|x l IH]; simpl; [reflexivity|].
  rewrite <- insert_by_key_perm. now constructor.
Qed.

Lemma insert_by_key_sorted (x : row_data) (l : list row_data) :
  StronglySorted data_le l -> StronglySorted data_le (insert_by_key x l).
Proof.
  induction 1 as [|y l Hl IH Hy]; simpl.
  - repeat constructor.
  - destruct (Py.pair_ltb (sort_key y) (sort_key x)) eqn:E.
    + constructor; [exact IH|].
      apply (Permutation_Forall (insert_by_key_perm x l)).
      constructor; [now apply pair_ltb_true | exact Hy].
    + apply pair_ltb_false in E.
      constructor; [now constructor|].
      constructor; [exact E|].
      eapply Forall_impl; [|exact Hy].
      intros z Hz. exact (pair_le_trans _ _ _ E Hz).
Qed.

Lemma sort_by_key_sorted (l : list row_data) :
  StronglySorted data_le (sort_by_key l).
Proof.
  induction l as [|x l IH]; simpl; [constructor|].
  now apply insert_by_key_sorted.
Qed.

Lemma pair_ltb_not_le (x y : string * string) :
  Py.pair_ltb y x = true -> pair_le x y -> False.
Proof.
  unfold Py.pair_ltb, pair_le.
  destruct (String.eqb_spec (fst y) (fst x)) as [F|F]; intros H1 [H|[E H]].
  - rewrite F, string_ltb_irrefl in H. discriminate.
  - apply string_leb_cases in H as [H|H].
    + pose proof (string_ltb_trans _ _ _ H1 H) as C.
      rewrite string_ltb_irrefl in C. discriminate.
    + rewrite H, string_ltb_irrefl in H1. discriminate.
  - pose proof (string_ltb_trans _ _ _ H1 H) as C.
    rewrite string_ltb_irrefl in C. discriminate.
  - now elim F.
Qed.

(** The sort is stable: among the rows whose key is equivalent to [k],
    an inserted row stays in front of the rows it preceded. *)
Lemma insert_by_key_stable (k : string * string) (x : row_data)
  (l : list row_data) :
  let same := fun y => negb (Py.pair_ltb (sort_key y) k)
                       && negb (Py.pair_ltb k (sort_key y)) in
  filter same (insert_by_key x l) = filter same (x :: l).
Proof.
  intros same. induction l as [|y l IH]; [reflexivity|].
  cbn [insert_by_key].
  destruct (Py.pair_ltb (sort_key y) (sort_key x)) eqn:E; [|reflexivity].
  cbn [filter] in *. rewrite IH.
  destruct (same y) eqn:Sy, (same x) eqn:Sx; try reflexivity.
  exfalso. unfold same in Sy, Sx.
  rewrite andb_true_iff, !negb_true_iff in Sy, Sx.
  destruct Sy as [Y1 Y2], Sx as [X1 X2].
  apply pair_ltb_false in Y1, X2.
  exact (pair_ltb_not_le _ _ E (pair_le_trans _ _ _ X2 Y1)).
Qed.

Lemma sort_by_key_stable (k : string * string) (l : list row_data) :
  let same := fun y => negb (Py.pair_ltb (sort_key y) k)
                       && negb (Py.pair_ltb k (sort_key y)) in
  filter same (sort_by_key l) = filter same l.
Proof.
  intros same. induction l as [|x l IH]; [reflexivity|].
  cbn [sort_by_key]. unfold same. rewrite insert_by_key_stable.
  fold same. cbn [filter]. now rewrite IH.
Qed.

(** ** The program *)

Lemma strongly_sorted_map {A B : Type} (f : A -> B)
  (leA : A -> A -> Prop) (leB : B -> B -> Prop) (l : list A) :
  (forall x y, leA x y -> leB (f x) (f y)) ->
  StronglySorted leA l -> StronglySorted leB (map f l).
Proof.
  intros Hf. induction 1 as [|x l Hl IH Hx]; simpl; constructor.
  - exact IH.
  - apply Forall_map. eapply Forall_impl; [|exact Hx]. intros y. apply Hf.
Qed.

Lemma add_row_key (c : row_data) : row_key (add_row c) = sort_key c.
Proof. reflexivity. Qed.

Section ProgramFacts.

Variable json_loads : string -> option container.
Variable subprocess_run : list string -> run_result.
Variable seconds_since : string -> option Z.

Local Abbreviation run_main := (main json_loads subprocess_run seconds_since).
Local Abbreviation query :=
  (get_docker_containers json_loads subprocess_run true).
Local Abbreviation table_of := (render subprocess_run seconds_since).
Local Abbreviation data_of := (container_row subprocess_run seconds_since).

(** The query prints at most the error line. *)
Lemma get_docker_containers_cases :
  (exists stdout,
      subprocess_run list_command = Completed stdout /\
      query = ([], loads_lines json_loads
                     (Py.split "010"%char (Py.strip stdout)))) \/
  (exists e,
      subprocess_run list_command = CalledProcessError e /\
      query = ([Print ("Error running docker command: " ++ e)], Ok [])) \/
  (exists e,
      subprocess_run list_command = OSError e /\
      query = ([], Raise (RaisedOSError e))).
Proof.
  unfold query, get_docker_containers, list_insert. cbn [firstn skipn app].
  fold list_command.
  destruct (subprocess_run list_command) as [stdout|e|e]; eauto.
Qed.

Lemma get_docker_containers_no_table (t : Table) :
  ~ In (ConsolePrint t) (fst query).
Proof.
  destruct get_docker_containers_cases
    as [(? & _ & ->)|[(? & _ & ->)|(? & _ & ->)]]; simpl; try tauto.
  intros [H|[]]. discriminate.
Qed.

(** [main] by the result of the query. *)
Lemma main_cases :
  (exists e, snd query = Raise e /\ run_main = (fst query, Raise e)) \/
  (snd query = Ok [] /\
   run_main = ((fst query ++ [Print "No containers found"])%list, Ok tt)) \/
  (exists containers,
      snd query = Ok containers /\ containers <> [] /\
      run_main
      = ((fst query ++ [ConsolePrint (table_of containers)])%list, Ok tt)).
Proof.
  unfold run_main, main. fold query.
  destruct query as [out [[|c containers]|e]]; simpl.
  - right. left. now split.
  - right. right. exists (c :: containers). now repeat split.
  - left. now exists e.
Qed.

Lemma main_table (t : Table) :
  In (ConsolePrint t) (fst run_main) ->
  exists containers,
    snd query = Ok containers /\ containers <> [] /\ t = table_of containers.
Proof.
  pose proof (get_docker_containers_no_table t) as Hq.
  destruct main_cases as [(e & _ & ->)|[(_ & ->)|(cs & Hcs & Hne & ->)]];
    simpl; intros H.
  - now elim Hq.
  - apply in_app_or in H as [H|[H|[]]]; [now elim Hq | discriminate].
  - apply in_app_or in H as [H|[H|[]]]; [now elim Hq|].
    injection H as <-. now exists cs.
Qed.

Lemma render_rows (containers : list container) (row : table_row) :
  In row (rows (table_of containers)) ->
  exists c, In c containers /\ row = add_row (data_of c).
Proof.
  unfold table_of, render. cbn [rows]. intros H.
  apply in_map_iff in H as (d & <- & H).
  apply (Permutation_in _ (Permutation_sym (sort_by_key_perm _))) in H.
  apply in_map_iff in H as (c & <- & H). now exists c.
Qed.

Lemma render_sorted (containers : list container) :
  StronglySorted row_le (rows (table_of containers)).
Proof.
  unfold table_of, render. cbn [rows].
  apply (strongly_sorted_map add_row data_le row_le).
  - intros x y H. unfold row_le. now rewrite !add_row_key.
  - apply sort_by_key_sorted.
Qed.

(** C6: the rows of every table [main] prints are sorted ascending by
    (working directory cell, name), compared as strings, and they are the
    rows of the queried containers, one each.  For the working
    directories "/var/b", "/var/a" and none, the row with the placeholder
    "-" comes first, then "/var/a", then "/var/b". *)
Theorem main_rows_sorted :
  (forall t,
      In (ConsolePrint t) (fst run_main) ->
      StronglySorted row_le (rows t) /\
      exists containers,
        snd query = Ok containers /\
        Permutation (map (fun c => add_row (data_of c)) containers) (rows t))
  /\
  map row_key (rows (table_of [sample_b; sample_a; sample_none]))
  = [("-", "svc-none"); ("/var/a", "svc-a"); ("/var/b", "svc-b")].
Proof.
  split; [|reflexivity].
  intros t H. apply main_table in H as (cs & Hcs & _ & ->).
  split; [apply render_sorted|].
  exists cs. split; [exact Hcs|].
  unfold table_of, render. cbn [rows].
  rewrite <- map_map. apply Permutation_map, sort_by_key_perm.
Qed.

(** C8: when the query yields no container, [main] prints
    "No containers found" last, prints no table and returns.  When the
    list command exits non-zero the only line before it is the error
    message; when the command prints nothing it is the only line. *)
Theorem main_no_containers :
  (snd query = Ok [] ->
   run_main = ((fst query ++ [Print "No containers found"])%list, Ok tt) /\
   (forall t, ~ In (ConsolePrint t) (fst run_main))) /\
  (forall e,
      subprocess_run list_command = CalledProcessError e ->
      run_main = ([Print ("Error running docker command: " ++ e);
                   Print "No containers found"], Ok tt)) /\
  (forall stdout,
      subprocess_run list_command = Completed stdout ->
      Py.strip stdout = "" ->
      run_main = ([Print "No containers found"], Ok tt)).
Proof.
  assert (Hmain : snd query = Ok [] ->
                  run_main = ((fst query ++ [Print "No containers found"])%list,
                              Ok tt)).
  { destruct main_cases as [(e & E & _)|[(_ & H)|(cs & E & Hne & _)]];
      intros Hq; [congruence | exact H | congruence]. }
  split; [|split].
  - intros Hq. split; [now apply Hmain|].
    intros t H. rewrite (Hmain Hq) in H. simpl in H.
    apply in_app_or in H as [H|[H|[]]]; [|discriminate].
    now elim (get_docker_containers_no_table t).
  - intros e He.
    destruct get_docker_containers_cases
      as [(? & E & _)|[(e' & E & Hq)|(? & E & _)]]; try congruence.
    rewrite Hmain; rewrite Hq; [|reflexivity]. simpl.
    rewrite He in E. now injection E as ->.
  - intros stdout Hs Hstrip.
    destruct get_docker_containers_cases
      as [(s' & E & Hq)|[(? & E & _)|(? & E & _)]]; try congruence.
    rewrite Hs in E. injection E as <-. rewrite Hstrip in Hq.
    rewrite Hmain; rewrite Hq; reflexivity.
Qed.

(** C9: in every row of a printed table the name cell and the status
    cell carry the same style, the value of [get_status_style] at the
    normalized status of the row's container; [get_status_style] is total
    into five styles. *)
Theorem main_name_status_same_style :
  (forall t row,
      In (ConsolePrint t) (fst run_main) -> In row (rows t) ->
      style (cell_name row) = style (cell_status row) /\
      style (cell_status row) = get_status_style (plain (cell_status row)) /\
      exists containers c,
        snd query = Ok containers /\ In c containers /\
        plain (cell_name row) = Names c /\
        plain (cell_status row) = get_simple_status (Status c)) /\
  (forall name status,
      style (style_container_name name status) = get_status_style status /\
      style (style_status_text status) = get_status_style status) /\
  (forall status, In (get_status_style status) status_styles).
Proof.
  split; [|split].
  - intros t row Ht Hrow. apply main_table in Ht as (cs & Hcs & _ & ->).
    apply render_rows in Hrow as (c & Hc & ->).
    split; [reflexivity|]. split; [reflexivity|].
    exists cs, c. now repeat split.
  - intros name status. now split.
  - intros status. unfold get_status_style, status_styles.
    split_ifs; simpl; tauto.
Qed.

(** C2 (the code departs from the specification): when the inspect command fails
    or its timestamp cannot be read, the uptime of the row is the
    placeholder, whatever the status says; [parse_status_for_time] is not
    consulted, although it reads " 5 m" from "Up 5 minutes". *)
Theorem inspect_failure_skips_status_fallback :
  (forall c,
      (forall stdout,
          subprocess_run (inspect_command (ID c)) = Completed stdout ->
          seconds_since (Py.replace "Z"%char "+00:00" (Py.strip stdout))
          = None) ->
      row_uptime (data_of c) = "   ?") /\
  parse_status_for_time "Up 5 minutes" = " 5 m".
Proof.
  split; [|reflexivity].
  intros c H. unfold data_of, container_row, get_container_uptime.
  cbn [row_uptime]. fold (inspect_command (ID c)).
  destruct (subprocess_run (inspect_command (ID c))) as [stdout|e|e];
    try reflexivity.
  now rewrite (H stdout eq_refl).
Qed.

End ProgramFacts.

(** ** The theorems at the sample runtime *)

Lemma main_rows_sorted_witness :
  StronglySorted row_le
    (rows (render sample_subprocess_run sample_seconds_since samples)).
Proof.
  apply (proj1 (main_rows_sorted sample_json_loads sample_subprocess_run
                  sample_seconds_since)).
  left. reflexivity.
Defined.

Lemma main_no_containers_witness :
  main sample_json_loads failing_subprocess_run sample_seconds_since
  = ([Print ("Error running docker command: "
             ++ "Command returned non-zero exit status 1.");
      Print "No containers found"], Ok tt) /\
  main sample_json_loads idle_subprocess_run sample_seconds_since
  = ([Print "No containers found"], Ok tt) /\
  (forall t,
      ~ In (ConsolePrint t)
          (fst (main sample_json_loads idle_subprocess_run
                  sample_seconds_since))).
Proof.
  split; [|split].
  - apply (proj1 (proj2 (main_no_containers sample_json_loads
                           failing_subprocess_run sample_seconds_since))).
    reflexivity.
  - apply (proj2 (proj2 (main_no_containers sample_json_loads
                           idle_subprocess_run sample_seconds_since))
             newline); reflexivity.
  - apply (proj1 (main_no_containers sample_json_loads
                    idle_subprocess_run sample_seconds_since)).
    reflexivity.
Defined.

Lemma main_name_status_same_style_witness :
  let row := add_row (container_row sample_subprocess_run
                        sample_seconds_since sample_a) in
  style (cell_name row) = style (cell_status row) /\
  style (cell_status row) = get_status_style (plain (cell_status row)).
Proof.
  intros row.
  destruct (proj1 (main_name_status_same_style sample_json_loads
                     sample_subprocess_run sample_seconds_since)
              (render sample_subprocess_run sample_seconds_since samples)
              row) as (H1 & H2 & _).
  - left. reflexivity.
  - right. left. reflexivity.
  - now split.
Defined.

Lemma inspect_failure_skips_status_fallback_witness :
  row_uptime (container_row sample_subprocess_run sample_seconds_since
                sample_b) = "   ?" /\
  parse_status_for_time (Status sample_b) = " 5 m".
Proof.
  split; [|reflexivity].
  apply (proj1 (inspect_failure_skips_status_fallback
                  sample_subprocess_run sample_seconds_since)).
  intros stdout H. discriminate H.
Defined.

(** * Further properties of the program *)

(** ** The group of a path *)

(** X1: [extract_group_from_path] puts a path into exactly one of five
    groups: "zzz_other" is the empty path and nothing else, "a_github" is
    any path that contains "/actions-runner/" (also below "/opt/" or
    "/var/"), and the prefix groups hold only without it. *)
Theorem extract_group_from_path_groups (path : string) :
  (extract_group_from_path path = "zzz_other" <-> path = "") /\
  (extract_group_from_path path = "a_github" <->
   Py.contains "/actions-runner/" path = true) /\
  (extract_group_from_path path = "b_opt" <->
   Py.contains "/actions-runner/" path = false /\
   Py.startswith "/opt/" path = true) /\
  (extract_group_from_path path = "c_var" <->
   Py.contains "/actions-runner/" path = false /\
   Py.startswith "/var/" path = true) /\
  (extract_group_from_path path = "d_other" <->
   path <> "" /\ Py.contains "/actions-runner/" path = false /\
   Py.startswith "/opt/" path = false /\
   Py.startswith "/var/" path = false).
Proof.
  unfold extract_group_from_path.
  destruct (String.eqb_spec path "") as [->|Hne].
  - repeat split; intros; try discriminate; try tauto.
    all: try (repeat match goal with H : _ /\ _ |- _ => destruct H end;
              discriminate || congruence).
  - destruct (Py.contains "/actions-runner/" path) eqn:Hc.
    + repeat split; intros; try discriminate; try tauto;
        repeat match goal with H : _ /\ _ |- _ => destruct H end;
        try discriminate; try congruence.
    + assert (Hov : Py.startswith "/opt/" path = true ->
                    Py.startswith "/var/" path = false).
      { unfold Py.startswith. rewrite prefix_iff. intros [q ->]. reflexivity. }
      destruct (Py.startswith "/opt/" path) eqn:Ho.
      * rewrite (Hov eq_refl).
        repeat split; intros; try discriminate; try tauto;
          repeat match goal with H : _ /\ _ |- _ => destruct H end;
          try discriminate; try congruence.
      * destruct (Py.startswith "/var/" path) eqn:Hv;
          repeat split; intros; try discriminate; try tauto;
          repeat match goal with H : _ /\ _ |- _ => destruct H end;
          try discriminate; try congruence.
Qed.

Lemma extract_group_from_path_groups_witness :
  extract_group_from_path "/opt/actions-runner/_work/app" = "a_github" /\
  extract_group_from_path "/opt/stacks/web" = "b_opt" /\
  extract_group_from_path "/var/lib/app" = "c_var" /\
  extract_group_from_path "/home/ops/app" = "d_other" /\
  extract_group_from_path "" = "zzz_other".
Proof.
  split; [|split; [|split; [|split]]].
  - apply (proj1 (proj2 (extract_group_from_path_groups _))). reflexivity.
  - apply (proj1 (proj2 (proj2 (extract_group_from_path_groups _)))).
    split; reflexivity.
  - apply (proj1 (proj2 (proj2 (proj2 (extract_group_from_path_groups _))))).
    split; reflexivity.
  - apply (proj2 (proj2 (proj2 (proj2 (extract_group_from_path_groups _))))).
    repeat split; try reflexivity. discriminate.
  - apply (proj1 (extract_group_from_path_groups _)). reflexivity.
Defined.

(** ** Status and style together *)

Lemma lower_char_idempotent (c : ascii) :
  Py.lower_char (Py.lower_char c) = Py.lower_char c.
Proof. destruct c as [[|] [|] [|] [|] [|] [|] [|] [|]]; reflexivity. Qed.

Lemma lower_idempotent (s : string) : Py.lower (Py.lower s) = Py.lower s.
Proof.
  induction s as [|c s IH]; simpl; [reflexivity|].
  now rewrite lower_char_idempotent, IH.
Qed.

Lemma lower_app (a b : string) :
  Py.lower (a ++ b) = Py.lower a ++ Py.lower b.
Proof. induction a as [|c a IH]; simpl; [reflexivity | now rewrite IH]. Qed.

(** X2: [get_simple_status] ignores the case of letters: two statuses
    with the same lower-casing are normalized alike, and a status and its
    lower-casing are; so a keyword pattern is found in whatever case it is
    written, anywhere in the status. *)
Theorem get_simple_status_ignores_case :
  (forall s1 s2, Py.lower s1 = Py.lower s2 ->
                 get_simple_status s1 = get_simple_status s2) /\
  (forall s, get_simple_status (Py.lower s) = get_simple_status s) /\
  (forall pre word post,
      Py.lower word = "healthy" ->
      get_simple_status (pre ++ word ++ post) = "healthy").
Proof.
  split; [|split].
  - intros s1 s2 H. unfold get_simple_status. now rewrite H.
  - intros s. unfold get_simple_status. now rewrite lower_idempotent.
  - intros pre word post H. unfold get_simple_status.
    rewrite !lower_app, H.
    replace (Py.contains "healthy" (Py.lower pre ++ "healthy" ++ Py.lower post))
      with true; [reflexivity|].
    symmetry. apply contains_iff. eauto.
Qed.

Lemma get_simple_status_ignores_case_witness :
  get_simple_status "UP 2 HOURS" = get_simple_status "Up 2 hours" /\
  get_simple_status ("Up 2 hours (" ++ "Healthy" ++ ")") = "healthy".
Proof.
  split.
  - apply (proj1 get_simple_status_ignores_case). reflexivity.
  - apply (proj2 (proj2 get_simple_status_ignores_case)). reflexivity.
Defined.

Lemma get_simple_status_reachable (status : string) :
  In (get_simple_status status) reachable_keywords.
Proof.
  unfold get_simple_status, reachable_keywords.
  destruct (Py.contains "healthy" (Py.lower status)) eqn:Hh;
    [simpl; tauto|].
  rewrite (no_healthy_no_unhealthy _ Hh).
  destruct (Py.contains "starting" (Py.lower status)) eqn:Hs;
    [simpl; tauto|].
  rewrite (no_starting_no_restarting _ Hs).
  split_ifs; simpl; tauto.
Qed.

Lemma first_style_of_status (status : string) :
  get_status_style (get_simple_status status)
  = first_style style_priority (Py.lower status).
Proof.
  unfold get_simple_status. cbn [first_style style_priority].
  destruct (Py.contains "healthy" (Py.lower status)) eqn:Hh; [reflexivity|].
  rewrite (no_healthy_no_unhealthy _ Hh).
  destruct (Py.contains "starting" (Py.lower status)) eqn:Hs; [reflexivity|].
  rewrite (no_starting_no_restarting _ Hs).
  destruct (Py.contains "up" (Py.lower status)); [reflexivity|].
  destruct (Py.contains "exited (0)" (Py.lower status)) eqn:H0.
  - now rewrite (exited_0_contains_exited _ H0).
  - destruct (Py.contains "exited" (Py.lower status)); [reflexivity|].
    split_ifs; reflexivity.
Qed.

(** X3: the style a raw status ends up with is decided by four patterns
    of its lower-casing, in this order: "healthy" bright_green, "starting"
    bright_yellow, "up" bright_cyan, "exited" bright_red, anything else
    white.  So a clean exit and a failed one are both bright_red, dead and
    paused containers are white, and a status that reports "unhealthy" is
    bright_green; the normalized status is one of eight keywords. *)
Theorem get_status_style_of_raw_status :
  (forall status,
      get_status_style (get_simple_status status)
      = first_style style_priority (Py.lower status)) /\
  (forall status, In (get_simple_status status) reachable_keywords) /\
  (forall status,
      Py.contains "unhealthy" (Py.lower status) = true ->
      get_status_style (get_simple_status status) = "bright_green") /\
  (forall status,
      get_status_style (get_simple_status status) = "bright_red" <->
      get_simple_status status = "stopped" \/
      get_simple_status status = "error").
Proof.
  split; [exact first_style_of_status|]. split; [|split].
  - exact get_simple_status_reachable.
  - intros status H. rewrite first_style_of_status.
    cbn [first_style style_priority].
    now rewrite (unhealthy_contains_healthy _ H).
  - intros status. unfold get_simple_status.
    destruct (Py.contains "healthy" (Py.lower status)) eqn:Hh.
    { split; [discriminate | intros [H|H]; discriminate]. }
    rewrite (no_healthy_no_unhealthy _ Hh).
    split_ifs; split; try discriminate; try (intros [H|H]; discriminate);
      try (now left); try (now right); reflexivity.
Qed.

Lemma get_status_style_of_raw_status_witness :
  get_status_style (get_simple_status "Up 4 minutes (unhealthy)")
  = "bright_green" /\
  (get_simple_status "Exited (0) 3 days ago" = "stopped" \/
   get_simple_status "Exited (0) 3 days ago" = "error").
Proof.
  split.
  - apply (proj1 (proj2 (proj2 get_status_style_of_raw_status))).
    reflexivity.
  - apply (proj2 (proj2 (proj2 get_status_style_of_raw_status))).
    reflexivity.
Defined.

(** ** Decimal numerals *)

Lemma all_chars_app (cls : ascii -> bool) (a b : string) :
  all_chars cls (a ++ b) = all_chars cls a && all_chars cls b.
Proof.
  induction a as [|c a IH]; simpl; [reflexivity|].
  now rewrite IH, andb_assoc.
Qed.

Lemma all_chars_impl (p q : ascii -> bool) (s : string) :
  (forall c, p c = true -> q c = true) ->
  all_chars p s = true -> all_chars q s = true.
Proof.
  intros H. induction s as [|c s IH]; simpl; [reflexivity|].
  rewrite !andb_true_iff. intros [Hc Hs]. split; [now apply H | now apply IH].
Qed.

Lemma string_of_uint_digits (d : Decimal.uint) :
  all_chars Py.is_digit (NilEmpty.string_of_uint d) = true.
Proof. induction d; simpl; auto. Qed.

Lemma string_of_uint_length (d : Decimal.uint) :
  String.length (NilEmpty.string_of_uint d) = Decimal.nb_digits d.
Proof. induction d; simpl; auto. Qed.

Lemma int_of_digits_from_acc (d : Decimal.uint) (acc : positive) :
  Py.int_of_digits_from (Z.pos acc) (NilEmpty.string_of_uint d)
  = Z.pos (Pos.of_uint_acc d acc).
Proof.
  revert acc.
  induction d as [|d IH|d IH|d IH|d IH|d IH|d IH|d IH|d IH|d IH|d IH];
    intros acc; [reflexivity|..];
    cbn [NilEmpty.string_of_uint Py.int_of_digits_from Pos.of_uint_acc];
    rewrite <- IH; f_equal; unfold Py.digit_value; simpl nat_of_ascii;
    simpl Z.of_nat; lia.
Qed.

Lemma int_of_digits_of_uint (d : Decimal.uint) :
  Py.int_of_digits (NilEmpty.string_of_uint d) = Z.of_N (Pos.of_uint d).
Proof.
  unfold Py.int_of_digits.
  induction d as [|d IH|d IH|d IH|d IH|d IH|d IH|d IH|d IH|d IH|d IH];
    [reflexivity | exact IH |..];
    cbn [NilEmpty.string_of_uint Py.int_of_digits_from Pos.of_uint Z.of_N];
    rewrite <- int_of_digits_from_acc; reflexivity.
Qed.

Lemma str_of_int_pos (p : positive) :
  Py.str_of_int (Z.pos p) = NilEmpty.string_of_uint (Pos.to_uint p).
Proof.
  unfold Py.str_of_int. cbn [Z.to_int NilZero.string_of_int].
  unfold NilZero.string_of_uint.
  pose proof (DecimalPos.Unsigned.to_uint_nonnil p) as H.
  now destruct (Pos.to_uint p).
Qed.

(** Printing a natural number and reading it back. *)
Lemma int_of_digits_str_of_int (n : Z) :
  (0 <= n)%Z -> Py.int_of_digits (Py.str_of_int n) = n.
Proof.
  destruct n as [|p|p]; intros H; [reflexivity| |lia].
  rewrite str_of_int_pos, int_of_digits_of_uint.
  now rewrite DecimalPos.Unsigned.of_to.
Qed.

Lemma str_of_int_digits (n : Z) :
  (0 <= n)%Z ->
  Py.str_of_int n <> "" /\ all_chars Py.is_digit (Py.str_of_int n) = true.
Proof.
  destruct n as [|p|p]; intros H; [split; [discriminate|reflexivity]| |lia].
  rewrite str_of_int_pos. split; [|apply string_of_uint_digits].
  pose proof (DecimalPos.Unsigned.to_uint_nonnil p) as Hn.
  now destruct (Pos.to_uint p).
Qed.

Lemma str_of_int_two_digits (q : Z) :
  (0 <= q < 100)%Z -> String.length (Py.str_of_int q) <= 2.
Proof.
  intros H. destruct q as [|p|p]; [simpl; lia| |lia].
  do 7 (try destruct p as [p|p|]); try lia; vm_compute; lia.
Qed.

Lemma format_2d_two_digits (q : Z) :
  (0 <= q < 100)%Z -> String.length (Py.format_2d q) = 2.
Proof.
  intros H. rewrite format_2d_length.
  pose proof (str_of_int_two_digits q H). lia.
Qed.

(** ** The counts [format_uptime] shows *)

(** X4: for a duration that is not negative the count shown stays within
    its unit and is at least 1 from minutes on: seconds 0..59, minutes
    1..59, hours 1..23, days 1..29, months 1..12, years from 1.  The months
    reach 12: the five days between 360 and 365 days read "12 mo". *)
Theorem format_uptime_count_bounds :
  (forall n,
      (0 <= n)%Z ->
      exists q suffix,
        format_uptime n = Py.format_2d q ++ " " ++ suffix /\
        ((suffix = "s" /\ 0 <= q < 60)%Z \/ (suffix = "m" /\ 1 <= q < 60)%Z \/
         (suffix = "h" /\ 1 <= q < 24)%Z \/ (suffix = "d" /\ 1 <= q < 30)%Z \/
         (suffix = "mo" /\ 1 <= q <= 12)%Z \/ (suffix = "y" /\ 1 <= q)%Z)) /\
  (forall n, (31104000 <= n < 31536000)%Z -> format_uptime n = "12 mo").
Proof.
  assert (Hlt : forall a b, (a < b)%Z -> (a <? b)%Z = true)
    by (intros; now apply Z.ltb_lt).
  assert (Hge : forall a b, (b <= a)%Z -> (a <? b)%Z = false)
    by (intros; now apply Z.ltb_ge).
  split.
  - intros n Hn. unfold format_uptime.
    destruct (Z.ltb_spec n 60).
    { exists n, "s". split; [reflexivity|]. left. split; [reflexivity|lia]. }
    destruct (Z.ltb_spec n 3600).
    { exists (n / 60)%Z, "m". split; [reflexivity|]. right. left.
      split; [reflexivity|].
      split; [apply Z.div_le_lower_bound | apply Z.div_lt_upper_bound]; lia. }
    destruct (Z.ltb_spec n 86400).
    { exists (n / 3600)%Z, "h". split; [reflexivity|]. right. right. left.
      split; [reflexivity|].
      split; [apply Z.div_le_lower_bound | apply Z.div_lt_upper_bound]; lia. }
    destruct (Z.ltb_spec n 2592000).
    { exists (n / 86400)%Z, "d". split; [reflexivity|]. do 3 right. left.
      split; [reflexivity|].
      split; [apply Z.div_le_lower_bound | apply Z.div_lt_upper_bound]; lia. }
    destruct (Z.ltb_spec n 31536000).
    { exists (n / 2592000)%Z, "mo". split; [reflexivity|]. do 4 right. left.
      split; [reflexivity|].
      assert (n / 2592000 < 13)%Z by (apply Z.div_lt_upper_bound; lia).
      split; [apply Z.div_le_lower_bound|]; lia. }
    exists (n / 31536000)%Z, "y". split; [reflexivity|]. do 5 right.
    split; [reflexivity|]. apply Z.div_le_lower_bound; lia.
  - intros n H. unfold format_uptime.
    rewrite !Hge, Hlt, (floor_div_unique n 2592000 12) by lia. reflexivity.
Qed.

Lemma format_uptime_count_bounds_witness :
  (exists q suffix,
      format_uptime 5400 = Py.format_2d q ++ " " ++ suffix /\
      ((suffix = "s" /\ 0 <= q < 60)%Z \/ (suffix = "m" /\ 1 <= q < 60)%Z \/
       (suffix = "h" /\ 1 <= q < 24)%Z \/ (suffix = "d" /\ 1 <= q < 30)%Z \/
       (suffix = "mo" /\ 1 <= q <= 12)%Z \/ (suffix = "y" /\ 1 <= q)%Z)) /\
  format_uptime 31400000 = "12 mo".
Proof.
  split.
  - apply (proj1 format_uptime_count_bounds 5400%Z). lia.
  - apply (proj2 format_uptime_count_bounds 31400000%Z). lia.
Defined.

(** X5: for a duration from 0 up to a hundred years the text is four
    characters long, five for months, so it fits the eight columns of the
    UPTIME column and the units line up; a negative duration (a start in
    the future) is shown in seconds with its sign. *)
Theorem format_uptime_width :
  (forall n,
      (0 <= n < 3153600000)%Z ->
      String.length (format_uptime n)
      = if ((2592000 <=? n) && (n <? 31536000))%Z then 5 else 4) /\
  (forall n,
      (n < 0)%Z ->
      format_uptime n = "-" ++ Py.str_of_int (- n) ++ " s").
Proof.
  split.
  - intros n Hn.
    assert (Hy : (31536000 <= n -> n / 31536000 < 100)%Z)
      by (intros; apply Z.div_lt_upper_bound; lia).
    unfold format_uptime.
    destruct (Z.ltb_spec n 60);
      [rewrite append_length, format_2d_two_digits by lia;
       destruct (Z.leb_spec 2592000 n); [lia | reflexivity]|].
    destruct (Z.ltb_spec n 3600);
      [rewrite append_length, format_2d_two_digits
        by (split; [apply Z.div_le_lower_bound
                   | apply Z.div_lt_upper_bound]; lia);
       destruct (Z.leb_spec 2592000 n); [lia | reflexivity]|].
    destruct (Z.ltb_spec n 86400);
      [rewrite append_length, format_2d_two_digits
        by (split; [apply Z.div_le_lower_bound
                   | apply Z.div_lt_upper_bound]; lia);
       destruct (Z.leb_spec 2592000 n); [lia | reflexivity]|].
    destruct (Z.ltb_spec n 2592000);
      [rewrite append_length, format_2d_two_digits
        by (split; [apply Z.div_le_lower_bound
                   | apply Z.div_lt_upper_bound]; lia);
       destruct (Z.leb_spec 2592000 n); [lia | reflexivity]|].
    destruct (Z.leb_spec 2592000 n); [|lia]. cbn [andb].
    destruct (Z.ltb_spec n 31536000);
      rewrite append_length, format_2d_two_digits
        by (split; [apply Z.div_le_lower_bound
                   | apply Z.div_lt_upper_bound]; lia);
      reflexivity.
  - intros n Hn. unfold format_uptime.
    replace (n <? 60)%Z with true by (symmetry; apply Z.ltb_lt; lia).
    destruct n as [|p|p]; [lia | lia |].
    unfold Py.format_2d, Py.rjust, Py.str_of_int.
    cbn [Z.opp Z.to_int NilZero.string_of_int].
    unfold NilZero.string_of_uint.
    pose proof (DecimalPos.Unsigned.to_uint_nonnil p) as Hnil.
    destruct (Pos.to_uint p) eqn:E; try (now elim Hnil);
      cbn [String.length]; rewrite Nat.sub_0_r || idtac;
      reflexivity.
Qed.

Lemma format_uptime_width_witness :
  String.length (format_uptime 86400) = 4 /\
  String.length (format_uptime 2592000) = 5 /\
  format_uptime (-90) = "-90 s".
Proof.
  split; [|split].
  - apply (proj1 format_uptime_width 86400%Z). lia.
  - apply (proj1 format_uptime_width 2592000%Z). lia.
  - apply (proj2 format_uptime_width (-90)%Z). lia.
Defined.

(** ** Reading a count from the status text *)

Lemma is_space_not_digit (c : ascii) :
  Py.is_space c = true -> Py.is_digit c = false.
Proof.
  destruct c as [[|] [|] [|] [|] [|] [|] [|] [|]]; vm_compute; congruence.
Qed.

Lemma head_is_app (cls : ascii -> bool) (a b : string) :
  a <> "" -> head_is cls (a ++ b) = head_is cls a.
Proof. destruct a; [easy | reflexivity]. Qed.

Lemma all_chars_head (cls : ascii -> bool) (a : string) :
  a <> "" -> all_chars cls a = true -> head_is cls a = true.
Proof.
  destruct a; [easy|]. simpl. now intros _ [H _]%andb_true_iff.
Qed.

Lemma skip_app (p x : string) : skip (String.length p) (p ++ x) = x.
Proof.
  induction p as [|c p IH]; cbn [String.length append skip]; [|exact IH].
  now destruct x.
Qed.

Lemma head_not_space (unit rest : string) :
  head_is (fun c => negb (Py.is_space c)) unit = true ->
  head_is Py.is_space (unit ++ rest) = false.
Proof. destruct unit; [easy|]. simpl. now intros ->%negb_true_iff. Qed.

Lemma count_unit_at_intro (unit s g : string) :
  head_is (fun c => negb (Py.is_space c)) unit = true ->
  count_before unit s g -> Re.count_unit_at unit s = Some g.
Proof.
  intros Hu (ws & rest & -> & Hg & Hgd & Hws & Hwss).
  unfold Re.count_unit_at.
  rewrite run_plus_app; try assumption.
  - rewrite run_plus_app; try assumption.
    + now rewrite strip_prefix_app.
    + now apply head_not_space.
  - rewrite head_is_app by assumption.
    pose proof (all_chars_head _ _ Hws Hwss) as H.
    destruct ws as [|c ws]; [easy|]. simpl in *.
    now apply is_space_not_digit.
Qed.

Lemma count_unit_at_elim (unit s g : string) :
  Re.count_unit_at unit s = Some g -> count_before unit s g.
Proof.
  unfold Re.count_unit_at.
  destruct (Re.run_plus Py.is_digit s) as [[ds t]|] eqn:E1; [|discriminate].
  destruct (Re.run_plus Py.is_space t) as [[ws u]|] eqn:E2; [|discriminate].
  destruct (Re.strip_prefix unit u) as [rest|] eqn:E3; [|discriminate].
  intros [= <-].
  apply run_plus_some in E1 as (-> & Hd & Hdd & _).
  apply run_plus_some in E2 as (-> & Hw & Hww & _).
  apply strip_prefix_some in E3 as ->.
  now exists ws, rest.
Qed.

(** The search finds the leftmost count. *)
Lemma search_first_count (unit status pre g : string) :
  head_is (fun c => negb (Py.is_space c)) unit = true ->
  first_count unit status pre g ->
  Re.search (Re.count_unit_at unit) status = Some g /\
  Py.contains unit status = true.
Proof.
  intros Hu [(tail & -> & Hc) Hpre]. split.
  - rewrite search_skip.
    + apply search_here. now apply count_unit_at_intro.
    + intros p1 p2 -> Hne.
      destruct (Re.count_unit_at unit (p2 ++ tail)) as [g'|] eqn:E;
        [|reflexivity].
      apply count_unit_at_elim in E.
      elim (Hpre (String.length p1) g'); [now apply length_app_lt|].
      now rewrite append_assoc, skip_app.
  - destruct Hc as (ws & rest & -> & _). apply contains_iff.
    exists (pre ++ g ++ ws), rest. now rewrite !append_assoc.
Qed.

Lemma search_no_count (unit status : string) :
  (forall i g, ~ count_before unit (skip i status) g) ->
  Re.search (Re.count_unit_at unit) status = None.
Proof.
  intros H. apply search_none. intros p q ->.
  destruct (Re.count_unit_at unit q) as [g|] eqn:E; [|reflexivity].
  apply count_unit_at_elim in E. elim (H (String.length p) g).
  now rewrite skip_app.
Qed.

Lemma search_count_digits (unit status g : string) :
  Re.search (Re.count_unit_at unit) status = Some g ->
  g <> "" /\ all_chars Py.is_digit g = true.
Proof.
  induction status as [|c s IH]; cbn [Re.search];
    destruct (Re.count_unit_at unit _) as [g'|] eqn:E;
    try discriminate; try (intros [= <-]);
    try (apply count_unit_at_elim in E as (? & ? & _ & ? & ? & _); now split).
  exact IH.
Qed.

Lemma int_of_digits_from_nonneg (acc : Z) (s : string) :
  (0 <= acc)%Z -> (0 <= Py.int_of_digits_from acc s)%Z.
Proof.
  revert acc. induction s as [|c s IH]; intros acc H;
    cbn [Py.int_of_digits_from]; [exact H|].
  apply IH. unfold Py.digit_value.
  pose proof (Zle_0_nat (nat_of_ascii c - 48)). lia.
Qed.



(** X7: what [parse_status_for_time] can answer.  Without a time word
    the answer is the placeholder.  Otherwise it is the placeholder or a
    count that is not negative with the letter of the first time word of
    the priority order that occurs: a count before a later word is never
    shown, and when no count stands before the first word that occurs,
    here "second", the answer is the placeholder whatever stands before
    the other words. *)
Theorem parse_status_for_time_answers (status : string) :
  (first_unit status = None -> parse_status_for_time status = "   ?") /\
  (forall letter,
      first_unit status = Some letter ->
      parse_status_for_time status = "   ?" \/
      exists n, (0 <= n)%Z /\
                parse_status_for_time status
                = Py.format_2d n ++ " " ++ letter) /\
  (Py.contains "second" status = true ->
   (forall i g, ~ count_before "second" (skip i status) g) ->
   parse_status_for_time status = "   ?").
Proof.
  unfold first_unit, parse_status_for_time. split; [|split].
  - split_ifs; try discriminate. reflexivity.
  - intros letter.
    assert (Hn : forall g, (0 <= Py.int_of_digits g)%Z)
      by (intros g; apply int_of_digits_from_nonneg; lia).
    split_ifs; intros [= <-];
      match goal with
      | |- context [Re.search ?m status] =>
          destruct (Re.search m status) as [g|]; [right | now left]
      end;
      exists (Py.int_of_digits g); now split.
  - intros -> H. now rewrite (search_no_count _ _ H).
Qed.

Lemma parse_status_for_time_answers_witness :
  parse_status_for_time "Up 2 weeks" = "   ?" /\
  (parse_status_for_time "Up About a minute" = "   ?" \/
   exists n, (0 <= n)%Z /\
             parse_status_for_time "Up About a minute"
             = Py.format_2d n ++ " " ++ "m") /\
  parse_status_for_time "Up Less than a second (5 minutes grace)" = "   ?".
Proof.
  split; [|split].
  - apply (proj1 (parse_status_for_time_answers _)). reflexivity.
  - apply (proj1 (proj2 (parse_status_for_time_answers _))). reflexivity.
  - apply (proj2 (proj2 (parse_status_for_time_answers _)));
      [reflexivity|].
    intros i g Hc. apply count_unit_at_intro in Hc; [|reflexivity].
    do 39 (destruct i as [|i]; [discriminate Hc|]).
    destruct i; discriminate Hc.
Defined.

Lemma lacks_not_contains (x : ascii) (sub s : string) :
  lacks x s = true -> lacks x sub = false -> Py.contains sub s = false.
Proof.
  intros Hs Hsub. destruct (Py.contains sub s) eqn:E; [|reflexivity].
  apply contains_iff in E as (p & q & ->). unfold lacks in *.
  rewrite !all_chars_app, !andb_true_iff in Hs. destruct Hs as (_ & Hs & _).
  congruence.
Qed.

Lemma digits_lack (x : ascii) (g : string) :
  Py.is_digit x = false -> all_chars Py.is_digit g = true -> lacks x g = true.
Proof.
  intros Hx. apply all_chars_impl. intros c Hc.
  destruct (Ascii.eqb_spec c x) as [->|_]; [congruence | reflexivity].
Qed.

(** The status texts of the runtime for a running container. *)
Lemma up_first_count (unit : string) (n : Z) :
  (0 <= n)%Z ->
  first_count unit ("Up " ++ Py.str_of_int n ++ " " ++ unit ++ "s") "Up "
    (Py.str_of_int n).
Proof.
  intros Hn. destruct (str_of_int_digits n Hn) as [Hne Hd]. split.
  - exists (Py.str_of_int n ++ " " ++ unit ++ "s"). split; [reflexivity|].
    exists " ", "s". repeat split; try assumption; discriminate.
  - intros i g' Hi (ws & rest & E & Hg & Hgd & _).
    destruct g' as [|c g']; [now elim Hg|].
    simpl in Hgd. apply andb_true_iff in Hgd as [Hc _].
    simpl in Hi.
    do 3 (destruct i as [|i];
          [cbn [skip append] in E; injection E as <- _; discriminate Hc|]).
    lia.
Qed.

Lemma up_lacks (x : ascii) (unit : string) (n : Z) :
  (0 <= n)%Z -> Py.is_digit x = false ->
  lacks x ("Up " ++ " " ++ unit ++ "s") = true ->
  lacks x ("Up " ++ Py.str_of_int n ++ " " ++ unit ++ "s") = true.
Proof.
  intros Hn Hx. unfold lacks.
  rewrite !(all_chars_app _ "Up "), !andb_true_iff. intros [H1 H2].
  split; [exact H1|]. rewrite all_chars_app, andb_true_iff.
  split; [|exact H2].
  now apply (digits_lack x), str_of_int_digits.
Qed.

(** X8: on the runtime's own wording for a running container the
    fallback shows what the precise path shows: "Up n seconds" reads as
    [format_uptime n] below a minute, "Up q minutes" as [format_uptime]
    of any duration within that minute count, and likewise for hours
    and days; the count is read back as printed for every [n]. *)
Theorem parse_status_for_time_agrees_with_format_uptime :
  (forall n,
      (0 <= n)%Z ->
      parse_status_for_time ("Up " ++ Py.str_of_int n ++ " seconds")
      = Py.format_2d n ++ " s" /\
      parse_status_for_time ("Up " ++ Py.str_of_int n ++ " minutes")
      = Py.format_2d n ++ " m" /\
      parse_status_for_time ("Up " ++ Py.str_of_int n ++ " hours")
      = Py.format_2d n ++ " h" /\
      parse_status_for_time ("Up " ++ Py.str_of_int n ++ " days")
      = Py.format_2d n ++ " d") /\
  (forall n,
      (0 <= n < 60)%Z ->
      parse_status_for_time ("Up " ++ Py.str_of_int n ++ " seconds")
      = format_uptime n) /\
  (forall q r,
      (1 <= q < 60)%Z -> (0 <= r < 60)%Z ->
      parse_status_for_time ("Up " ++ Py.str_of_int q ++ " minutes")
      = format_uptime (60 * q + r)) /\
  (forall q r,
      (1 <= q < 24)%Z -> (0 <= r < 3600)%Z ->
      parse_status_for_time ("Up " ++ Py.str_of_int q ++ " hours")
      = format_uptime (3600 * q + r)) /\
  (forall q r,
      (1 <= q < 30)%Z -> (0 <= r < 86400)%Z ->
      parse_status_for_time ("Up " ++ Py.str_of_int q ++ " days")
      = format_uptime (86400 * q + r)).
Proof.
  assert (Hread : forall n,
             (0 <= n)%Z ->
             parse_status_for_time ("Up " ++ Py.str_of_int n ++ " seconds")
             = Py.format_2d n ++ " s" /\
             parse_status_for_time ("Up " ++ Py.str_of_int n ++ " minutes")
             = Py.format_2d n ++ " m" /\
             parse_status_for_time ("Up " ++ Py.str_of_int n ++ " hours")
             = Py.format_2d n ++ " h" /\
             parse_status_for_time ("Up " ++ Py.str_of_int n ++ " days")
             = Py.format_2d n ++ " d").
  { intros n Hn.
    assert (Hno : forall x unit sub,
               Py.is_digit x = false ->
               lacks x ("Up " ++ " " ++ unit ++ "s") = true ->
               lacks x sub = false ->
               Py.contains sub
                 ("Up " ++ Py.str_of_int n ++ " " ++ unit ++ "s") = false).
    { intros x unit sub Hx Hl Hsub.
      apply (lacks_not_contains x); [|exact Hsub]. now apply up_lacks. }
    unfold parse_status_for_time. repeat split.
    - destruct (search_first_count "second" _ _ _ eq_refl
                  (up_first_count "second" n Hn)) as [Hs Hc].
      change ("Up " ++ Py.str_of_int n ++ " seconds")
        with ("Up " ++ Py.str_of_int n ++ " " ++ "second" ++ "s").
      now rewrite Hc, Hs, int_of_digits_str_of_int.
    - destruct (search_first_count "minute" _ _ _ eq_refl
                  (up_first_count "minute" n Hn)) as [Hs Hc].
      change ("Up " ++ Py.str_of_int n ++ " minutes")
        with ("Up " ++ Py.str_of_int n ++ " " ++ "minute" ++ "s").
      rewrite (Hno "c"%char "minute" "second") by reflexivity.
      now rewrite Hc, Hs, int_of_digits_str_of_int.
    - destruct (search_first_count "hour" _ _ _ eq_refl
                  (up_first_count "hour" n Hn)) as [Hs Hc].
      change ("Up " ++ Py.str_of_int n ++ " hours")
        with ("Up " ++ Py.str_of_int n ++ " " ++ "hour" ++ "s").
      rewrite (Hno "c"%char "hour" "second") by reflexivity.
      rewrite (Hno "m"%char "hour" "minute") by reflexivity.
      now rewrite Hc, Hs, int_of_digits_str_of_int.
    - destruct (search_first_count "day" _ _ _ eq_refl
                  (up_first_count "day" n Hn)) as [Hs Hc].
      change ("Up " ++ Py.str_of_int n ++ " days")
        with ("Up " ++ Py.str_of_int n ++ " " ++ "day" ++ "s").
      rewrite (Hno "c"%char "day" "second") by reflexivity.
      rewrite (Hno "m"%char "day" "minute") by reflexivity.
      rewrite (Hno "h"%char "day" "hour") by reflexivity.
      now rewrite Hc, Hs, int_of_digits_str_of_int. }
  assert (Hlt : forall a b, (a < b)%Z -> (a <? b)%Z = true)
    by (intros; now apply Z.ltb_lt).
  assert (Hge : forall a b, (b <= a)%Z -> (a <? b)%Z = false)
    by (intros; now apply Z.ltb_ge).
  split; [exact Hread|]. split; [|split; [|split]].
  - intros n Hn. rewrite (proj1 (Hread n (proj1 Hn))).
    unfold format_uptime. now rewrite Hlt by lia.
  - intros q r Hq Hr.
    destruct (Hread q) as (_ & -> & _); [lia|].
    unfold format_uptime.
    rewrite Hge, Hlt, (floor_div_unique _ 60 q) by lia. reflexivity.
  - intros q r Hq Hr.
    destruct (Hread q) as (_ & _ & -> & _); [lia|].
    unfold format_uptime.
    rewrite !Hge, Hlt, (floor_div_unique _ 3600 q) by lia. reflexivity.
  - intros q r Hq Hr.
    destruct (Hread q) as (_ & _ & _ & ->); [lia|].
    unfold format_uptime.
    rewrite !Hge, Hlt, (floor_div_unique _ 86400 q) by lia. reflexivity.
Qed.

Lemma parse_status_for_time_agrees_with_format_uptime_witness :
  parse_status_for_time "Up 45 seconds" = format_uptime 45 /\
  parse_status_for_time "Up 7 minutes" = format_uptime 449 /\
  parse_status_for_time "Up 23 hours" = format_uptime 86399 /\
  parse_status_for_time "Up 13 days" = format_uptime 1200000.
Proof.
  pose proof parse_status_for_time_agrees_with_format_uptime
    as (_ & Hs & Hm & Hh & Hd).
  split; [|split; [|split]].
  - apply (Hs 45%Z). lia.
  - apply (Hm 7%Z 29%Z); lia.
  - apply (Hh 23%Z 3599%Z); lia.
  - apply (Hd 13%Z 76800%Z); lia.
Defined.

(** ** What the extractors return *)

Lemma findall_fuel_ports (n : nat) (s : string) :
  Forall (fun port =>
            port <> "" /\ all_chars Py.is_digit port = true /\
            exists a b, s = a ++ Re.port_literal ++ port ++ b)
    (Re.findall_fuel Re.external_port_at n s).
Proof.
  revert s. induction n as [|n IH]; intros s; cbn [Re.findall_fuel].
  - constructor.
  - destruct (Re.external_port_at s) as [[g rest]|] eqn:E.
    + apply lit_then_run_some in E as (-> & Hne & Hd & _).
      constructor; [repeat split; try assumption; now exists "", rest|].
      eapply Forall_impl; [|apply (IH rest)].
      intros port (H1 & H2 & a & b & ->). repeat split; try assumption.
      exists (Re.port_literal ++ g ++ a), b. now rewrite !append_assoc.
    + destruct s as [|c s]; [constructor|].
      eapply Forall_impl; [|apply (IH s)].
      intros port (H1 & H2 & a & b & ->). repeat split; try assumption.
      now exists (String c a), b.
Qed.

Lemma join_digits (l : list string) :
  Forall (fun port => all_chars Py.is_digit port = true) l ->
  all_chars is_digit_or_comma (Py.join "," l) = true.
Proof.
  assert (Hd : forall port, all_chars Py.is_digit port = true ->
                            all_chars is_digit_or_comma port = true).
  { intros port. apply all_chars_impl. intros c Hc.
    unfold is_digit_or_comma. now rewrite Hc. }
  induction 1 as [|port l Hp Hl IH]; [reflexivity|].
  rewrite join_cons. destruct l as [|port' l]; [now apply Hd|].
  rewrite !all_chars_app, (Hd _ Hp), IH. reflexivity.
Qed.

(** X9: whatever the ports text is, [extract_external_ports] returns a
    comma-joined list of ports, each a non-empty run of digits that
    stands right after "0.0.0.0:" in the text; so the result holds
    nothing but digits and commas. *)
Theorem extract_external_ports_result (ports_str : string) :
  (exists ports,
      extract_external_ports ports_str = Py.join "," ports /\
      Forall (fun port =>
                port <> "" /\ all_chars Py.is_digit port = true /\
                Py.contains (Re.port_literal ++ port) ports_str = true)
        ports) /\
  all_chars is_digit_or_comma (extract_external_ports ports_str) = true.
Proof.
  pose proof (findall_fuel_ports (String.length ports_str) ports_str) as H.
  fold (Re.findall Re.external_port_at ports_str) in H.
  rewrite extract_external_ports_join. split.
  - exists (Re.findall Re.external_port_at ports_str).
    split; [reflexivity|].
    eapply Forall_impl; [|exact H].
    intros port (H1 & H2 & a & b & E). repeat split; try assumption.
    apply contains_iff. exists a, b. now rewrite append_assoc.
  - apply join_digits. eapply Forall_impl; [|exact H]. now intros port (_ & ? & _).
Qed.

Lemma search_some {A : Type} (match_at : string -> option A)
  (s : string) (r : A) :
  Re.search match_at s = Some r ->
  exists p q, s = p ++ q /\ match_at q = Some r.
Proof.
  induction s as [|c s IH]; cbn [Re.search].
  - destruct (match_at "") eqn:E; [|discriminate].
    intros [= <-]. now exists "", "".
  - destruct (match_at (String c s)) eqn:E.
    + intros [= <-]. now exists "", (String c s).
    + intros H. apply IH in H as (p & q & -> & H).
      now exists (String c p), q.
Qed.

(** X10: [get_working_dir] returns a text without a comma that stands
    right after the key in the labels and runs up to a comma or the end;
    it is not empty exactly when some occurrence of the key is followed by
    a character other than a comma. *)
Theorem get_working_dir_result (labels : string) :
  (get_working_dir labels <> "" ->
   all_chars Re.not_comma (get_working_dir labels) = true /\
   exists a b,
     labels = a ++ Re.working_dir_key ++ get_working_dir labels ++ b /\
     head_is Re.not_comma b = false) /\
  (get_working_dir labels <> "" <->
   exists i after,
     occurs_at Re.working_dir_key labels i after /\
     head_is Re.not_comma after = true).
Proof.
  assert (Hsome : forall g,
             Re.search Re.working_dir_at labels = Some g ->
             g <> "" /\ all_chars Re.not_comma g = true /\
             exists a b, labels = a ++ Re.working_dir_key ++ g ++ b /\
                         head_is Re.not_comma b = false).
  { intros g H. apply search_some in H as (p & q & -> & H).
    unfold Re.working_dir_at in H.
    destruct (Re.lit_then_run Re.working_dir_key Re.not_comma q)
      as [[g' rest]|] eqn:E; [|discriminate].
    injection H as ->.
    apply lit_then_run_some in E as (-> & Hne & Hg & Hrest).
    repeat split; try assumption. now exists p, rest. }
  split.
  - unfold get_working_dir.
    destruct (String.eqb labels ""); [easy|].
    destruct (Re.search Re.working_dir_at labels) as [g|] eqn:E; [|easy].
    intros _. now destruct (Hsome g eq_refl) as (_ & ? & ?).
  - split.
    + unfold get_working_dir.
      destruct (String.eqb labels ""); [easy|].
      destruct (Re.search Re.working_dir_at labels) as [g|] eqn:E; [|easy].
      intros _. destruct (Hsome g eq_refl) as (Hne & Hg & a & b & Hl & _).
      exists (String.length a), (g ++ b). split; [now exists a|].
      rewrite head_is_app by assumption. now apply all_chars_head.
    + intros (i & after & Ho & Hh) Hempty.
      unfold get_working_dir in Hempty.
      destruct Ho as (p & -> & _).
      replace (String.eqb (p ++ Re.working_dir_key ++ after) "")
        with false in Hempty by (now destruct p).
      destruct (Re.search Re.working_dir_at
                  (p ++ Re.working_dir_key ++ after)) as [g|] eqn:E.
      * subst g. now destruct (Hsome "" eq_refl) as (Hne & _).
      * assert (Hm : exists g rest,
                   Re.lit_then_run Re.working_dir_key Re.not_comma
                     (Re.working_dir_key ++ after) = Some (g, rest)).
        { destruct (Re.lit_then_run Re.working_dir_key Re.not_comma
                      (Re.working_dir_key ++ after)) as [[g rest]|] eqn:M;
            [now exists g, rest|].
          rewrite lit_then_run_none in M.
          rewrite (M after eq_refl) in Hh. discriminate. }
        destruct Hm as (g & rest & Hm).
        assert (Hnone : forall q (r : string),
                   Re.search Re.working_dir_at (p ++ q) = None ->
                   Re.working_dir_at q = Some r -> False).
        { clear. induction p as [|c p IH]; intros q r Hs Hq.
          - cbn [append] in Hs.
            rewrite (search_here _ _ _ Hq) in Hs. discriminate.
          - cbn [append Re.search] in Hs.
            destruct (Re.working_dir_at (String c (p ++ q)));
              [discriminate|]. now apply (IH q r). }
        apply (Hnone _ g E). unfold Re.working_dir_at. now rewrite Hm.
Qed.

Lemma get_working_dir_result_witness :
  all_chars Re.not_comma
    (get_working_dir (Re.working_dir_key ++ "/srv/app,tier=web")) = true /\
  get_working_dir ("a=b," ++ Re.working_dir_key ++ "/srv/app") <> "".
Proof.
  split.
  - apply (proj1 (get_working_dir_result _)). discriminate.
  - apply (proj2 (get_working_dir_result _)).
    exists 4, "/srv/app". split; [|reflexivity]. now exists "a=b,".
Defined.

(** ** The query *)

Section QueryFacts.

Variable json_loads : string -> option container.
Variable subprocess_run : list string -> run_result.
Variable seconds_since : string -> option Z.

Local Abbreviation run_main := (main json_loads subprocess_run seconds_since).
Local Abbreviation query :=
  (get_docker_containers json_loads subprocess_run true).
Local Abbreviation decodes :=
  (fun (line : string) (c : container) => json_loads line = Some c).

Lemma loads_lines_ok (lines : list string) (cs : list container) :
  loads_lines json_loads lines = Ok cs <->
  Forall2 decodes (filter nonblank lines) cs.
Proof.
  revert cs. induction lines as [|line lines IH]; intros cs;
    cbn [loads_lines filter].
  - split; [intros [= <-]; constructor | now inversion 1].
  - unfold nonblank at 1.
    destruct (String.eqb line ""); cbn [negb]; [apply IH|].
    destruct (json_loads line) as [c|] eqn:E.
    + destruct (loads_lines json_loads lines) as [cs0|e].
      * split.
        -- intros [= <-]. constructor; [exact E | now apply IH].
        -- inversion 1 as [|? c' ? cs' Hc Hcs]; subst.
           apply IH in Hcs. congruence.
      * split; [discriminate|].
        inversion 1 as [|? c' ? cs' Hc Hcs]; subst.
        apply IH in Hcs. discriminate.
    + split; [discriminate|].
      inversion 1 as [|? c' ? cs' Hc Hcs]; subst. congruence.
Qed.

Lemma loads_lines_raise (lines : list string) (e : exn) :
  loads_lines json_loads lines = Raise e <->
  exists good bad rest,
    filter nonblank lines = (good ++ bad :: rest)%list /\
    Forall (fun line => json_loads line <> None) good /\
    json_loads bad = None /\ e = JSONDecodeError bad.
Proof.
  induction lines as [|line lines IH]; cbn [loads_lines filter].
  - split; [discriminate|]. intros (good & bad & rest & H & _).
    now destruct good.
  - unfold nonblank at 1.
    destruct (String.eqb line ""); cbn [negb]; [apply IH|].
    destruct (json_loads line) as [c|] eqn:E.
    + destruct (loads_lines json_loads lines) as [cs0|e0] eqn:L.
      * split; [discriminate|].
        intros (good & bad & rest & H & Hg & Hb & ->).
        destruct good as [|g good]; cbn [app] in H; injection H as -> H.
        -- congruence.
        -- inversion Hg; subst.
           assert (C : Ok cs0 = Raise (JSONDecodeError bad))
             by (apply IH; now exists good, bad, rest).
           discriminate.
      * split.
        -- intros [= <-].
           destruct (proj1 IH eq_refl) as (good & bad & rest & H & Hg & Hb & He).
           exists (line :: good), bad, rest. cbn [app]. rewrite H.
           repeat split; try assumption. constructor; [congruence|exact Hg].
        -- intros (good & bad & rest & H & Hg & Hb & ->).
           destruct good as [|g good]; cbn [app] in H; injection H as -> H.
           ++ congruence.
           ++ inversion Hg; subst. f_equal.
              assert (C : Raise e0 = Raise (JSONDecodeError bad))
                by (apply IH; now exists good, bad, rest).
              now injection C.
    + split.
      * intros [= <-]. exists [], line, (filter nonblank lines).
        now repeat split.
      * intros (good & bad & rest & H & Hg & Hb & ->).
        destruct good as [|g good]; cbn [app] in H; injection H as -> H.
        -- reflexivity.
        -- inversion Hg; subst. congruence.
Qed.

(** X11: the loop over the output lines skips the blank lines and
    decodes the others in order: it returns the containers [cs] exactly
    when the non-blank lines decode to [cs] one by one, and it raises
    exactly for the first non-blank line that [json.loads] rejects. *)
Theorem loads_lines_decodes_nonblank (lines : list string) :
  (forall cs,
      loads_lines json_loads lines = Ok cs <->
      Forall2 decodes (filter nonblank lines) cs) /\
  (forall e,
      loads_lines json_loads lines = Raise e <->
      exists good bad rest,
        filter nonblank lines = (good ++ bad :: rest)%list /\
        Forall (fun line => json_loads line <> None) good /\
        json_loads bad = None /\ e = JSONDecodeError bad).
Proof. split; [apply loads_lines_ok | apply loads_lines_raise]. Qed.


End QueryFacts.

Lemma loads_lines_decodes_nonblank_witness :
  loads_lines sample_json_loads
    [json_line sample_b; ""; json_line sample_a]
  = Ok [sample_b; sample_a] /\
  loads_lines sample_json_loads
    [json_line sample_a; ""; "Cannot connect"; json_line sample_b]
  = Raise (JSONDecodeError "Cannot connect").
Proof.
  split.
  - apply (proj1 (loads_lines_decodes_nonblank sample_json_loads _)).
    repeat constructor.
  - apply (proj2 (loads_lines_decodes_nonblank sample_json_loads _)).
    exists [json_line sample_a], "Cannot connect", [json_line sample_b].
    repeat split. constructor; [discriminate | constructor].
Defined.


(** ** From the output of the list command to the containers *)

Lemma lstrip_clean (s : string) :
  head_is Py.is_space s = false -> Py.lstrip s = s.
Proof.
  unfold Py.lstrip. destruct s as [|c s]; cbn [head_is Py.drop_while];
    [easy | now intros ->].
Qed.

Lemma rstrip_app_blank (a x : string) :
  Py.rstrip x = "" -> Py.rstrip (a ++ x) = Py.rstrip a.
Proof.
  intros H. induction a as [|c a IH]; cbn [append Py.rstrip]; [exact H|].
  now rewrite IH.
Qed.

Lemma rstrip_app (a x : string) :
  Py.rstrip x <> "" -> Py.rstrip (a ++ x) = a ++ Py.rstrip x.
Proof.
  intros H. induction a as [|c a IH]; cbn [append Py.rstrip]; [reflexivity|].
  rewrite IH. destruct (a ++ Py.rstrip x) eqn:E; [|reflexivity].
  destruct a; [now elim H | discriminate].
Qed.

Lemma rstrip_clean (s : string) :
  last_is (fun c => negb (Py.is_space c)) s = true ->
  Py.rstrip s = s /\ s <> "".
Proof.
  induction s as [|c s IH]; [discriminate|].
  destruct s as [|c' s].
  - cbn [last_is Py.rstrip]. intros ->%negb_true_iff. now split.
  - intros H. change (last_is _ (String c (String c' s)))
      with (last_is (fun c => negb (Py.is_space c)) (String c' s)) in H.
    destruct (IH H) as [E _]. split; [|discriminate].
    change (Py.rstrip (String c (String c' s)))
      with (match Py.rstrip (String c' s) with
            | "" => if Py.is_space c then "" else String c ""
            | r => String c r
            end).
    now rewrite E.
Qed.

Lemma split_clean (line : string) :
  all_chars (fun c => negb (Ascii.eqb c "010"%char)) line = true ->
  Py.split "010"%char line = [line] /\
  (forall rest,
      Py.split "010"%char (line ++ newline ++ rest)
      = line :: Py.split "010"%char rest).
Proof.
  induction line as [|c line IH]; cbn [all_chars].
  - intros _. split; reflexivity.
  - rewrite andb_true_iff, negb_true_iff. intros [Hc Hl].
    destruct (IH Hl) as [H1 H2]. split.
    + cbn [Py.split]. now rewrite Hc, H1.
    + intros rest. cbn [append Py.split]. now rewrite Hc, H2.
Qed.

Lemma clean_line_parts (line : string) :
  clean_line line = true ->
  head_is Py.is_space line = false /\
  last_is (fun c => negb (Py.is_space c)) line = true /\
  all_chars (fun c => negb (Ascii.eqb c "010"%char)) line = true.
Proof.
  unfold clean_line. rewrite !andb_true_iff, negb_true_iff. tauto.
Qed.

Lemma rstrip_lines_text (line : string) (lines : list string) :
  forallb clean_line (line :: lines) = true ->
  Py.rstrip (lines_text (line :: lines))
  = Py.join newline (line :: lines).
Proof.
  revert line. induction lines as [|line' lines IH]; intros line;
    cbn [forallb]; rewrite !andb_true_iff.
  - intros [H _]. apply clean_line_parts in H as (_ & H & _).
    cbn [lines_text]. rewrite rstrip_app_blank by reflexivity.
    apply rstrip_clean, H.
  - intros [H H']. cbn [lines_text] in *. rewrite <- append_assoc.
    assert (Hr := IH line'). cbn [forallb] in Hr.
    rewrite andb_true_iff in Hr. specialize (Hr H').
    rewrite rstrip_app.
    + rewrite Hr, append_assoc. reflexivity.
    + rewrite Hr. destruct H' as [H' _].
      apply clean_line_parts in H' as (_ & H' & _).
      apply rstrip_clean in H' as [_ H'].
      rewrite join_cons. destruct lines; [exact H'|].
      destruct line'; [now elim H' | discriminate].
Qed.

Lemma split_join_lines (line : string) (lines : list string) :
  forallb clean_line (line :: lines) = true ->
  Py.split "010"%char (Py.join newline (line :: lines)) = line :: lines.
Proof.
  revert line. induction lines as [|line' lines IH]; intros line;
    cbn [forallb]; rewrite !andb_true_iff.
  - intros [H _]. apply clean_line_parts in H as (_ & _ & H).
    now apply split_clean.
  - intros [H H']. apply clean_line_parts in H as (_ & _ & H).
    rewrite join_cons. rewrite (proj2 (split_clean line H)).
    f_equal. apply IH. cbn [forallb]. now rewrite andb_true_iff.
Qed.

Lemma filter_nonblank_clean (lines : list string) :
  forallb clean_line lines = true -> filter nonblank lines = lines.
Proof.
  induction lines as [|line lines IH]; cbn [forallb filter]; [reflexivity|].
  rewrite andb_true_iff. intros [H H']. rewrite (IH H').
  apply clean_line_parts in H as (_ & H & _).
  apply rstrip_clean in H as [_ H]. unfold nonblank.
  now destruct (String.eqb_spec line "").
Qed.

Section QueryRoundTrip.

Variable json_loads : string -> option container.
Variable subprocess_run : list string -> run_result.
Variable seconds_since : string -> option Z.

(** X13: when the list command prints one object per line, each line
    without white space at its ends, and [json.loads] decodes the lines
    to the containers [cs], the query returns exactly [cs], in the order
    of the lines, and prints nothing; [main] then prints one table with
    one row for each container, or "No containers found" when there is
    no line. *)
Theorem get_docker_containers_decodes_output
  (lines : list string) (cs : list container) :
  subprocess_run list_command = Completed (lines_text lines) ->
  forallb clean_line lines = true ->
  Forall2 (fun line c => json_loads line = Some c) lines cs ->
  get_docker_containers json_loads subprocess_run true = ([], Ok cs) /\
  main json_loads subprocess_run seconds_since
  = (match cs with
     | [] => [Print "No containers found"]
     | _ :: _ => [ConsolePrint (render subprocess_run seconds_since cs)]
     end, Ok tt) /\
  List.length (rows (render subprocess_run seconds_since cs))
  = List.length lines.
Proof.
  intros Hrun Hclean Hdec.
  assert (Hq : get_docker_containers json_loads subprocess_run true
               = ([], Ok cs)).
  { destruct (get_docker_containers_cases json_loads subprocess_run)
      as [(stdout & Hrun' & ->)|[(msg & Hrun' & _)|(msg & Hrun' & _)]];
      try congruence.
    rewrite Hrun in Hrun'. injection Hrun' as <-. f_equal.
    apply loads_lines_ok.
    destruct lines as [|line lines].
    - inversion Hdec. constructor.
    - unfold Py.strip. rewrite lstrip_clean.
      + rewrite rstrip_lines_text, split_join_lines by assumption.
        now rewrite filter_nonblank_clean.
      + cbn [forallb] in Hclean. apply andb_true_iff in Hclean as [H _].
        apply clean_line_parts in H as (H & H' & _).
        apply rstrip_clean in H' as [_ H'].
        cbn [lines_text]. now rewrite head_is_app. }
  split; [exact Hq|]. split.
  - unfold main. rewrite Hq. now destruct cs.
  - unfold render. cbn [rows]. rewrite !length_map.
    rewrite <- (Permutation_length (sort_by_key_perm _)), length_map.
    symmetry. exact (Forall2_length Hdec).
Qed.

End QueryRoundTrip.

Lemma get_docker_containers_decodes_output_witness :
  get_docker_containers sample_json_loads sample_subprocess_run true
  = ([], Ok samples).
Proof.
  apply (get_docker_containers_decodes_output sample_json_loads
           sample_subprocess_run sample_seconds_since
           (map json_line samples) samples).
  - reflexivity.
  - reflexivity.
  - repeat constructor.
Defined.

(** ** The cells of a row *)

Lemma substring_skip (n : nat) (s : string) :
  substring 0 n s ++ skip n s = s /\
  String.length (substring 0 n s) = Nat.min n (String.length s).
Proof.
  revert s. induction n as [|n IH]; intros [|c s]; try (now split).
  cbn [substring skip append String.length Nat.min].
  destruct (IH s) as [-> ->]. now split.
Qed.

Lemma or_dash_nonempty (x : string) : or_dash x <> "".
Proof.
  unfold or_dash. destruct (String.eqb_spec x ""); [discriminate|assumption].
Qed.

Lemma format_uptime_length (n : Z) : 4 <= String.length (format_uptime n).
Proof.
  unfold format_uptime.
  split_ifs; rewrite append_length, format_2d_length;
    cbn [String.length]; lia.
Qed.

Section RowFacts.

Variable subprocess_run : list string -> run_result.
Variable seconds_since : string -> option Z.

Local Abbreviation table_of := (render subprocess_run seconds_since).
Local Abbreviation data_of := (container_row subprocess_run seconds_since).

(** X14: the ID cell of a row holds the first eight characters of the
    ID of its container, or the whole ID when that is shorter. *)
Theorem render_id_cell (containers : list container) (row : table_row) :
  In row (rows (table_of containers)) ->
  exists c,
    In c containers /\ plain (cell_name row) = Names c /\
    ID c = cell_id row ++ skip 8 (ID c) /\
    String.length (cell_id row) = Nat.min 8 (String.length (ID c)).
Proof.
  intros H. apply render_rows in H as (c & Hc & ->).
  exists c. split; [exact Hc|]. split; [reflexivity|].
  cbn [add_row cell_id container_row row_id]. unfold Py.slice_to.
  destruct (substring_skip 8 (ID c)) as [H1 H2]. now split.
Qed.

(** X15: in every row the working directory, ports, uptime and status
    cells are filled: the working directory and the ports are never empty
    (a dash stands for a missing one), the ports cell is a dash or digits
    and commas, the uptime has at least four characters and the status
    is one of eight keywords. *)
Theorem render_cells_filled (containers : list container) (row : table_row) :
  In row (rows (table_of containers)) ->
  cell_workdir row <> "" /\
  cell_ports row <> "" /\
  (cell_ports row = "-" \/
   all_chars is_digit_or_comma (cell_ports row) = true) /\
  4 <= String.length (cell_uptime row) /\
  In (plain (cell_status row)) reachable_keywords.
Proof.
  intros H. apply render_rows in H as (c & Hc & ->).
  cbn [add_row container_row cell_workdir cell_ports cell_uptime cell_status
         row_workdir row_ports row_uptime row_status style_status_text plain].
  split; [apply or_dash_nonempty|]. split; [apply or_dash_nonempty|].
  split; [|split].
  - unfold or_dash.
    destruct (String.eqb _ ""); [now left | right].
    rewrite extract_external_ports_join. apply join_digits.
    eapply Forall_impl;
      [|apply (findall_fuel_ports (String.length _) _)].
    now intros port (_ & ? & _).
  - unfold get_container_uptime.
    destruct (subprocess_run _); try (simpl; lia).
    destruct (seconds_since _); [apply format_uptime_length | simpl; lia].
  - apply get_simple_status_reachable.
Qed.

End RowFacts.

Lemma render_id_cell_witness :
  exists c,
    In c samples /\ Names c = "svc-a" /\
    ID c = "a3c5e709" ++ skip 8 (ID c).
Proof.
  destruct (render_id_cell sample_subprocess_run sample_seconds_since samples
              (add_row (container_row sample_subprocess_run
                          sample_seconds_since sample_a)))
    as (c & Hc & Hn & Hid & _).
  - right. left. reflexivity.
  - exists c. split; [exact Hc|]. split; [now rewrite <- Hn | exact Hid].
Defined.

Lemma render_cells_filled_witness :
  cell_workdir (add_row (container_row sample_subprocess_run
                           sample_seconds_since sample_none)) <> "".
Proof.
  apply (render_cells_filled sample_subprocess_run sample_seconds_since
           samples).
  left. reflexivity.
Defined.

(** ** The order of the rows *)


Lemma pair_le_antisym (a b : string * string) :
  pair_le a b -> pair_le b a -> a = b.
Proof.
  destruct a as [a1 a2], b as [b1 b2]. unfold pair_le. cbn [fst snd].
  intros [H1|[E1 H1]] [H2|[E2 H2]].
  - pose proof (string_ltb_trans _ _ _ H1 H2) as C.
    rewrite string_ltb_irrefl in C. discriminate.
  - subst. rewrite string_ltb_irrefl in H1. discriminate.
  - subst. rewrite string_ltb_irrefl in H2. discriminate.
  - subst. f_equal. now apply String.leb_antisym.
Qed.

Lemma pair_ltb_irrefl (k : string * string) : Py.pair_ltb k k = false.
Proof.
  unfold Py.pair_ltb. now rewrite String.eqb_refl, string_ltb_irrefl.
Qed.

Lemma key_eqb_eq (a b : string * string) : key_eqb a b = true <-> a = b.
Proof.
  destruct a as [a1 a2], b as [b1 b2]. unfold key_eqb. cbn [fst snd].
  rewrite andb_true_iff, !String.eqb_eq. split.
  - now intros [-> ->].
  - now intros [= -> ->].
Qed.

(** Neither key is below the other exactly when they are the same. *)
Lemma pair_equiv_eqb (a b : string * string) :
  negb (Py.pair_ltb a b) && negb (Py.pair_ltb b a) = key_eqb a b.
Proof.
  destruct (key_eqb a b) eqn:E.
  - apply key_eqb_eq in E as ->. now rewrite pair_ltb_irrefl.
  - destruct (Py.pair_ltb a b) eqn:H1; [reflexivity|].
    destruct (Py.pair_ltb b a) eqn:H2; [reflexivity|].
    apply pair_ltb_false in H1, H2.
    rewrite (pair_le_antisym _ _ H2 H1) in E.
    assert (C : key_eqb b b = true) by now apply key_eqb_eq.
    congruence.
Qed.

Lemma filter_map_comm {A B : Type} (f : A -> B) (p : B -> bool)
  (l : list A) :
  filter p (map f l) = map f (filter (fun x => p (f x)) l).
Proof.
  induction l as [|x l IH]; cbn [map filter]; [reflexivity|].
  destruct (p (f x)); cbn [map]; now rewrite IH.
Qed.




Section OrderFacts.

Variable subprocess_run : list string -> run_result.
Variable seconds_since : string -> option Z.

Local Abbreviation table_of := (render subprocess_run seconds_since).
Local Abbreviation data_of := (container_row subprocess_run seconds_since).

(** X16: the sort is stable: the rows with one and the same (working
    directory, name) pair stand in the table in the order in which the
    query returned their containers. *)
Theorem render_keeps_query_order_of_equal_keys
  (containers : list container) (k : string * string) :
  filter (fun row => key_eqb (row_key row) k) (rows (table_of containers))
  = filter (fun row => key_eqb (row_key row) k)
      (map (fun c => add_row (data_of c)) containers).
Proof.
  unfold render. cbn [rows]. rewrite <- (map_map data_of add_row).
  rewrite !(filter_map_comm add_row). f_equal.
  rewrite (filter_ext _ (fun y => negb (Py.pair_ltb (sort_key y) k)
                                  && negb (Py.pair_ltb k (sort_key y))))
    by (intros d; now rewrite pair_equiv_eqb, add_row_key).
  rewrite sort_by_key_stable.
  apply filter_ext. intros d. now rewrite pair_equiv_eqb, add_row_key.
Qed.


End OrderFacts.


(** ** The group of a row *)

Section GroupFacts.

Variable subprocess_run : list string -> run_result.
Variable seconds_since : string -> option Z.

Local Abbreviation data_of := (container_row subprocess_run seconds_since).

(** X18: the group of a row is computed from the working directory as
    extracted, before the dash is put in: the group "zzz_other" marks
    exactly the rows without a working directory, which show the dash; a
    row that shows anything else has the group of what it shows; and a
    container without the Labels key is treated like one with empty
    labels. *)
Theorem container_row_group (c : container) :
  (row_group (data_of c) = "zzz_other" <->
   get_working_dir (get_default (Labels c) "") = "") /\
  (row_group (data_of c) = "zzz_other" -> row_workdir (data_of c) = "-") /\
  (row_workdir (data_of c) <> "-" ->
   row_workdir (data_of c) = get_working_dir (get_default (Labels c) "") /\
   row_group (data_of c) = extract_group_from_path (row_workdir (data_of c)))
  /\
  (Labels c = None \/ Labels c = Some "" ->
   row_workdir (data_of c) = "-" /\ row_group (data_of c) = "zzz_other").
Proof.
  cbn [container_row row_group row_workdir].
  set (workdir := get_working_dir (get_default (Labels c) "")).
  assert (Hg : extract_group_from_path workdir = "zzz_other" <-> workdir = "").
  { unfold extract_group_from_path.
    destruct (String.eqb_spec workdir "") as [E|E]; [tauto|].
    split; [|tauto]. split_ifs; discriminate. }
  split; [exact Hg|]. split; [|split].
  - intros H. apply Hg in H. now rewrite H.
  - unfold or_dash. destruct (String.eqb_spec workdir ""); [easy|].
    now intros _.
  - intros [H|H]; subst workdir; rewrite H; now split.
Qed.

End GroupFacts.

Lemma container_row_group_witness :
  row_workdir (container_row sample_subprocess_run sample_seconds_since
                 sample_none) = "-" /\
  row_group (container_row sample_subprocess_run sample_seconds_since
               sample_a) = "c_var".
Proof.
  split.
  - apply (proj2 (proj2 (proj2 (container_row_group sample_subprocess_run
                                  sample_seconds_since sample_none)))).
    now left.
  - destruct (proj1 (proj2 (proj2 (container_row_group
                                      sample_subprocess_run
                                      sample_seconds_since sample_a))))
      as [_ H]; [discriminate|].
    exact H.
Defined.
